(** * my-personal-assistant: a shallow embedding of the Jira query builders,
    the fetch clients, the text-generation gateway and the web API handlers,
    with the properties of the specification settled against them.

    Layout: the embedding (one module per source file) comes first, the
    definitions that follow the wording of the specification second, the
    lemmas and theorems last. *)

From Stdlib Require Import List String Ascii ZArith Bool Lia.
Import ListNotations.
Open Scope list_scope.
Open Scope string_scope.

Set Warnings "-register-all".

(* ================================================================== *)
(** * Python values and idioms used by the sources *)
(* ================================================================== *)

Module Py.

(** A Python [str] is held as the string of its UTF-8 bytes: equality,
    emptiness, concatenation and joining are those of the bytes.  (A
    [str] with a lone surrogate has no UTF-8 form and is not covered.) *)

(** The double-quote character, as it appears inside the f-strings. *)
Definition dq : string := String "034"%char EmptyString.

(** [sep.join(parts)]. *)
Definition join (sep : string) (parts : list string) : string :=
  String.concat sep parts.

(** Truthiness of an [Optional[str]]: [None] and the empty string are falsy.
    The value is kept so that the branch guarded by [if x:] can use it. *)
Definition truthy (o : option string) : option string :=
  match o with
  | Some (String c s) => Some (String c s)
  | _ => None
  end.

(** Truthiness of an [Optional[list[str]]]: [None] and [[]] are falsy. *)
Definition truthy_list (o : option (list string)) : option (list string) :=
  match o with
  | Some (x :: l) => Some (x :: l)
  | _ => None
  end.

(** [l.append(x)], as the new value of [l]. *)
Definition list_append {A : Type} (l : list A) (x : A) : list A := app l [x].

(** [s in l] for a list (or tuple) of strings. *)
Definition str_in (s : string) (l : list string) : bool :=
  existsb (String.eqb s) l.

(** [a or b] on an optional string and a string. *)
Definition or_else (a : option string) (b : string) : string :=
  match truthy a with
  | Some s => s
  | None => b
  end.

(** Exceptions raised or caught somewhere in the sources.  The two
    [FilterValidationError] classes are different classes: the one of
    core/jira_client.py derives from [ValueError], the one of
    clients/jira_client.py derives from [Exception]. *)
Inductive exn : Type :=
| ValueError (msg : string)
| Core_FilterValidationError (msg : string)
| Clients_FilterValidationError (msg : string)
| RuntimeError (msg : string)
| ConfigurationError (msg : string)
| KeyError (msg : string)
| TypeError (msg : string)
| AttributeError (msg : string)
| ValidationError (msg : string)
| HTTPStatusError (status_code : Z) (text : string)
| RequestError (msg : string)
| RetryError (last : string)
| BackendError (msg : string).

(** [str(e)].  A [KeyError] shows the repr of its key (single quotes
    around the plain names the sources index with).  The text of a
    [RetryError] names the finished attempt by its address in memory and
    cannot be given by a model: the last failure's text stands for it,
    and no statement below relies on the text of a [RetryError]. *)
Definition str_of_exn (e : exn) : string :=
  match e with
  | ValueError m | Core_FilterValidationError m
  | Clients_FilterValidationError m | RuntimeError m
  | ConfigurationError m | TypeError m | AttributeError m
  | ValidationError m | RequestError m | RetryError m | BackendError m => m
  | KeyError k => "'" ++ k ++ "'"
  | HTTPStatusError _ t => t
  end.

(** [isinstance(e, ValueError)], subclasses included (pydantic's
    [ValidationError] is one). *)
Definition is_ValueError (e : exn) : bool :=
  match e with
  | ValueError _ | Core_FilterValidationError _ | ValidationError _ => true
  | _ => false
  end.

(** [isinstance(e, RuntimeError)]. *)
Definition is_RuntimeError (e : exn) : bool :=
  match e with
  | RuntimeError _ => true
  | _ => false
  end.

(** A computation that returns a value or raises. *)
Definition M (A : Type) : Type := (exn + A)%type.

Definition ret {A : Type} (a : A) : M A := inr a.

Definition raise {A : Type} (e : exn) : M A := inl e.

Definition bind {A B : Type} (m : M A) (k : A -> M B) : M B :=
  match m with
  | inl e => inl e
  | inr a => k a
  end.

(** JSON documents as the HTTP layer decodes them. *)
Inductive json : Type :=
| JNull
| JBool (b : bool)
| JNum (n : Z)
| JStr (s : string)
| JArr (items : list json)
| JObj (members : list (string * json)).

Fixpoint assoc {A : Type} (k : string) (d : list (string * A)) : option A :=
  match d with
  | [] => None
  | (k', v) :: d' => if String.eqb k k' then Some v else assoc k d'
  end.

(** [j[k]]: raises [KeyError] on a missing key, [TypeError] on a
    value that is not a dict. *)
Definition getitem (j : json) (k : string) : M json :=
  match j with
  | JObj d =>
      match assoc k d with
      | Some v => ret v
      | None => raise (KeyError k)
      end
  | _ => raise (TypeError "not subscriptable")
  end.

(** [d.get(k, default)] on a decoded response: a dict answers, any
    other value (a list, a string, a number, null) has no [get]. *)
Definition dict_get (j : json) (k : string) (default : json) : M json :=
  match j with
  | JObj d =>
      match assoc k d with
      | Some v => ret v
      | None => ret default
      end
  | JNull => raise (AttributeError "'NoneType' object has no attribute 'get'")
  | JBool _ => raise (AttributeError "'bool' object has no attribute 'get'")
  | JNum _ => raise (AttributeError "'int' object has no attribute 'get'")
  | JStr _ => raise (AttributeError "'str' object has no attribute 'get'")
  | JArr _ => raise (AttributeError "'list' object has no attribute 'get'")
  end.

End Py.

Import Py.

Notation "x <- m ;; k" := (bind m (fun x => k))
  (at level 61, m at next level, right associativity).

(** Query parameters of a request: a dict from names to strings or
    integers, kept in insertion order. *)
Inductive value : Type :=
| VStr (s : string)
| VInt (n : Z).

Record Request : Type := mkRequest {
  req_method : string;
  req_endpoint : string;
  req_params : list (string * value)
}.

(** The network as the clients see it: the outcome of the [n]-th attempt
    at a request, after [raise_for_status] and JSON decoding. *)
Definition Transport : Type := Request -> nat -> M json.

(* ================================================================== *)
(** * packages/api/src/my_personal_assistant_api/core/jira_client.py *)
(* ================================================================== *)

Module Core.

Definition allowed_statuses : list string :=
  ["To Do"; "In Progress"; "Done"; "Backlog"; "Selected for Development"].

(** [JiraClient._build_jql_query]. *)
Definition _build_jql_query
  (project_key : option string) (issue_types labels : option (list string))
  (assignee status : option string) : M string :=
  let jql_parts : list string := [] in
  let jql_parts :=
    match truthy project_key with
    | Some pk => list_append jql_parts ("project = " ++ pk)
    | None => jql_parts
    end in
  let jql_parts :=
    match truthy_list issue_types with
    | Some its =>
        let types_list := map (fun it => dq ++ it ++ dq) its in
        let types_str := join ", " types_list in
        list_append jql_parts ("issueType in (" ++ types_str ++ ")")
    | None => jql_parts
    end in
  let jql_parts :=
    match truthy_list labels with
    | Some ls =>
        let labels_list := map (fun label => dq ++ label ++ dq) ls in
        let labels_str := join ", " labels_list in
        list_append jql_parts ("labels in (" ++ labels_str ++ ")")
    | None => jql_parts
    end in
  let jql_parts :=
    match truthy assignee with
    | Some a => list_append jql_parts ("assignee = " ++ dq ++ a ++ dq)
    | None => jql_parts
    end in
  jql_parts <-
    match truthy status with
    | Some st =>
        if negb (str_in st allowed_statuses) then
          let error_part1 := "Invalid status: '" ++ st ++ "'. " in
          let error_part2 := "Allowed statuses are: " in
          let error_part3 := join ", " allowed_statuses in
          let full_error_message := error_part1 ++ error_part2 ++ error_part3 in
          raise (Core_FilterValidationError full_error_message)
        else ret (list_append jql_parts ("status = " ++ dq ++ st ++ dq))
    | None => ret jql_parts
    end ;;
  ret (join " AND " jql_parts).

(** [JiraClient._request]: one attempt; a failure is printed and
    re-raised unchanged. *)
Definition _request (transport : Transport) (method endpoint : string)
  (params : list (string * value)) : M json :=
  transport (mkRequest method endpoint params) 0%nat.

(** The [params] dict that [search_issues] builds.  An argument left out
    by the caller is [None] here and takes the default of the signature. *)
Definition search_params (jql : string) (fields : option (list string))
  (start_at max_results : option Z) : list (string * value) :=
  let start_at := match start_at with Some n => n | None => 0%Z end in
  let max_results := match max_results with Some n => n | None => 50%Z end in
  let params :=
    [("jql", VStr jql); ("startAt", VInt start_at);
     ("maxResults", VInt max_results)] in
  match truthy_list fields with
  | Some fs => list_append params ("fields", VStr (join "," fs))
  | None =>
      list_append params
        ("fields",
         VStr ("summary,status,assignee,labels,issuetype,priority," ++
               "reporter,created,updated,duedate,parent"))
  end.

(** [JiraClient.search_issues]. *)
Definition search_issues (transport : Transport) (jql : string)
  (fields : option (list string)) (start_at max_results : option Z)
  : M json :=
  _request transport "GET" "search"
    (search_params jql fields start_at max_results).

(** [JiraClient.get_epics]. *)
Definition get_epics (transport : Transport)
  (project_key : option string) (labels : option (list string))
  (assignee status : option string) (fields : option (list string))
  : M json :=
  jql <- _build_jql_query project_key (Some ["Epic"]) labels assignee status ;;
  response_data <- search_issues transport jql fields None None ;;
  dict_get response_data "issues" (JArr []).

(** [JiraClient.get_stories]. *)
Definition get_stories (transport : Transport)
  (project_key : option string) (labels : option (list string))
  (assignee status : option string) (fields : option (list string))
  : M json :=
  jql <- _build_jql_query project_key (Some ["Story"]) labels assignee status ;;
  response_data <- search_issues transport jql fields None None ;;
  dict_get response_data "issues" (JArr []).

(** [JiraClient.get_tasks]. *)
Definition get_tasks (transport : Transport)
  (project_key : option string) (labels : option (list string))
  (assignee status : option string) (fields : option (list string))
  : M json :=
  jql <- _build_jql_query project_key (Some ["Task"; "Sub-task"])
           labels assignee status ;;
  response_data <- search_issues transport jql fields None None ;;
  dict_get response_data "issues" (JArr []).

Definition JIRA_API_VERSION : string := "rest/api/2".

(** The attributes that [JiraClient.__init__] sets (the HTTP handle is
    the transport). *)
Record JiraClient : Type := mkJiraClient {
  base_url : string;
  username : string;
  api_token : string;
  api_base_url : string
}.

(** [a or b] on two optional strings: [a] when it is truthy, else [b]
    as it is. *)
Definition or_opt (a b : option string) : option string :=
  match truthy a with
  | Some s => Some s
  | None => b
  end.

(** [JiraClient.__init__].  [getenv] is [os.getenv], [urljoin] is
    [urllib.parse.urljoin]. *)
Definition __init__ (getenv : string -> option string)
  (urljoin : string -> string -> string)
  (base_url username api_token : option string) : M JiraClient :=
  let base_url := or_opt base_url (getenv "JIRA_BASE_URL") in
  let username := or_opt username (getenv "JIRA_USERNAME") in
  let api_token := or_opt api_token (getenv "JIRA_API_TOKEN") in
  match truthy base_url with
  | None =>
      raise (ValueError
               ("Jira base URL must be provided or set as JIRA_BASE_URL " ++
                "environment variable."))
  | Some the_base_url =>
      match truthy username with
      | None =>
          raise (ValueError
                   ("Jira username must be provided or set as JIRA_USERNAME "
                    ++ "environment variable."))
      | Some the_username =>
          match truthy api_token with
          | None =>
              raise (ValueError
                       ("Jira API token must be provided or set as JIRA_API_TOKEN "
                        ++ "environment variable."))
          | Some the_api_token =>
              ret (mkJiraClient the_base_url the_username the_api_token
                     (urljoin the_base_url (JIRA_API_VERSION ++ "/")))
          end
      end
  end.

End Core.

(* ================================================================== *)
(** * packages/api/src/my_personal_assistant_api/clients/jira_client.py *)
(* ================================================================== *)

Module Clients.

(** The [tenacity.retry] decorator with [stop_after_attempt(stop_after)]:
    attempt [n] is tried, then the following ones; when the last allowed
    attempt fails a [RetryError] is raised.  Waiting times are not
    modelled, and the text of the [RetryError] is reduced to the text of
    the last failure. *)
Fixpoint retry (stop_after : nat) (call : nat -> M json) (n : nat) : M json :=
  match stop_after with
  | O => raise (RetryError "")
  | S k =>
      match call n with
      | inr v => ret v
      | inl e =>
          match k with
          | O => raise (RetryError (str_of_exn e))
          | S _ => retry k call (S n)
          end
      end
  end.

(** [JiraClient._make_request]. *)
Definition _make_request (transport : Transport) (method endpoint : string)
  (params : list (string * value)) : M json :=
  retry 3 (transport (mkRequest method endpoint params)) 0%nat.

(** [JiraClient._build_jql_query]. *)
Definition _build_jql_query (issue_type : string)
  (labels : option (list string)) (assignee status : option string)
  : string :=
  let conditions := ["issuetype = " ++ dq ++ issue_type ++ dq] in
  let conditions :=
    match truthy_list labels with
    | Some ls =>
        list_append conditions
          ("labels in (" ++
           join ", " (map (fun label => dq ++ label ++ dq) ls) ++ ")")
    | None => conditions
    end in
  let conditions :=
    match truthy assignee with
    | Some a => list_append conditions ("assignee = " ++ dq ++ a ++ dq)
    | None => conditions
    end in
  let conditions :=
    match truthy status with
    | Some st => list_append conditions ("status = " ++ dq ++ st ++ dq)
    | None => conditions
    end in
  join " AND " conditions.

(** [JiraClient.get_epics]. *)
Definition get_epics (transport : Transport) (labels : option (list string))
  (assignee status : option string) : M json :=
  let jql := _build_jql_query "Epic" labels assignee status in
  response <- _make_request transport "GET" "rest/api/2/search"
                [("jql", VStr jql); ("maxResults", VInt 100)] ;;
  dict_get response "issues" (JArr []).

(** [JiraClient.get_stories]. *)
Definition get_stories (transport : Transport) (labels : option (list string))
  (assignee status : option string) : M json :=
  let jql := _build_jql_query "Story" labels assignee status in
  response <- _make_request transport "GET" "rest/api/2/search"
                [("jql", VStr jql); ("maxResults", VInt 100)] ;;
  dict_get response "issues" (JArr []).

(** [JiraClient.get_tasks]. *)
Definition get_tasks (transport : Transport) (labels : option (list string))
  (assignee status : option string) : M json :=
  let jql := _build_jql_query "Task" labels assignee status in
  response <- _make_request transport "GET" "rest/api/2/search"
                [("jql", VStr jql); ("maxResults", VInt 100)] ;;
  dict_get response "issues" (JArr []).

(** [s.endswith(suffix)]. *)
Fixpoint endswith (s suffix : string) : bool :=
  String.eqb s suffix ||
  match s with
  | EmptyString => false
  | String _ s' => endswith s' suffix
  end.

(** [JiraConfig.ensure_trailing_slash], on the text of the URL. *)
Definition ensure_trailing_slash (v : string) : string :=
  if negb (endswith v "/") then v ++ "/" else v.

End Clients.

(* ================================================================== *)
(** * src/jira_assistant/llm_client.py *)
(* ================================================================== *)

Module LLM.

(** What [chain.invoke] hands back: a Python [str], or any other object,
    of which the client only ever takes [str(response)]. *)
Inductive Response : Type :=
| RStr (s : string)
| RObj (str_of : string).

(** An initialized backend, seen through the chain built in [generate]:
    the prompt and the extra keyword arguments go in, a response comes
    back or the call raises. *)
Definition BaseLLM : Type := string -> list (string * value) -> M Response.

(** The process environment and the provider SDK constructors. *)
Record Env : Type := mkEnv {
  getenv : string -> option string;
  ChatOpenAI : string -> M BaseLLM;
  VertexAI : string -> M BaseLLM;
  Anthropic : string -> M BaseLLM
}.

(** The instance attributes of [LLMClient]; [clients] is a dict, kept in
    insertion order. *)
Record LLMClient : Type := mkLLMClient {
  clients : list (string * BaseLLM);
  default_provider : string
}.

Definition SUPPORTED_PROVIDERS : list string := ["openai"; "vertex"; "claude"].

(** [d[k] = v] on an insertion-ordered dict. *)
Fixpoint setitem {A : Type} (d : list (string * A)) (k : string) (v : A)
  : list (string * A) :=
  match d with
  | [] => [(k, v)]
  | (k', v') :: d' =>
      if String.eqb k k' then (k, v) :: d' else (k', v') :: setitem d' k v
  end.

(** [d.keys()]. *)
Definition keys {A : Type} (d : list (string * A)) : list string :=
  map fst d.

(** [LLMClient._initialize_openai], as the new value of [self.clients]. *)
Definition _initialize_openai (env : Env) (clients : list (string * BaseLLM))
  : list (string * BaseLLM) :=
  match truthy (getenv env "OPENAI_API_KEY") with
  | Some api_key =>
      match ChatOpenAI env api_key with
      | inr llm => setitem clients "openai" llm
      | inl _ => clients
      end
  | None => clients
  end.

(** [LLMClient._initialize_vertex]. *)
Definition _initialize_vertex (env : Env) (clients : list (string * BaseLLM))
  : list (string * BaseLLM) :=
  match truthy (getenv env "GOOGLE_CLOUD_PROJECT") with
  | Some project_id =>
      match VertexAI env project_id with
      | inr llm => setitem clients "vertex" llm
      | inl _ => clients
      end
  | None => clients
  end.

(** [LLMClient._initialize_claude]. *)
Definition _initialize_claude (env : Env) (clients : list (string * BaseLLM))
  : list (string * BaseLLM) :=
  match truthy (getenv env "ANTHROPIC_API_KEY") with
  | Some api_key =>
      match Anthropic env api_key with
      | inr llm => setitem clients "claude" llm
      | inl _ => clients
      end
  | None => clients
  end.

(** [LLMClient.__init__]. *)
Definition __init__ (env : Env) : M LLMClient :=
  let clients := [] in
  let clients := _initialize_openai env clients in
  let clients := _initialize_vertex env clients in
  let clients := _initialize_claude env clients in
  match clients with
  | [] =>
      raise (ConfigurationError
               ("No LLM providers configured. Please set up credentials for " ++
                "at least one of the supported providers: " ++
                join ", " SUPPORTED_PROVIDERS))
  | (first, _) :: _ => ret (mkLLMClient clients first)
  end.

(** The bytes of given values, as a string. *)
Definition bytes (l : list nat) : string :=
  fold_right (fun n s => String (ascii_of_nat n) s) EmptyString l.

(** The whitespace of [str.strip]: the UTF-8 encodings of the code points
    for which [str.isspace] holds, U+0009 to U+000D, U+001C to U+0020,
    U+0085, U+00A0, U+1680, U+2000 to U+200A, U+2028, U+2029, U+202F,
    U+205F and U+3000. *)
Definition whitespace : list string :=
  map bytes
    [[9]; [10]; [11]; [12]; [13]; [28]; [29]; [30]; [31]; [32];
     [194; 133]; [194; 160]; [225; 154; 128];
     [226; 128; 128]; [226; 128; 129]; [226; 128; 130]; [226; 128; 131];
     [226; 128; 132]; [226; 128; 133]; [226; 128; 134]; [226; 128; 135];
     [226; 128; 136]; [226; 128; 137]; [226; 128; 138];
     [226; 128; 168]; [226; 128; 169]; [226; 128; 175];
     [226; 129; 159]; [227; 128; 128]].

(** The bytes [w] encode a whitespace code point. *)
Definition isspace (w : string) : bool := str_in w whitespace.

(** [s.lstrip()]: leading whitespace code points, of one, two or three
    bytes, are dropped one after the other. *)
Fixpoint lstrip (s : string) : string :=
  match s with
  | EmptyString => EmptyString
  | String a s1 =>
      if isspace (String a EmptyString) then lstrip s1
      else
        match s1 with
        | EmptyString => s
        | String b s2 =>
            if isspace (String a (String b EmptyString)) then lstrip s2
            else
              match s2 with
              | EmptyString => s
              | String c s3 =>
                  if isspace (String a (String b (String c EmptyString)))
                  then lstrip s3
                  else s
              end
        end
  end.

(** [s.rstrip()]: the text is cut where what follows is whitespace
    throughout. *)
Fixpoint rstrip (s : string) : string :=
  match s with
  | EmptyString => EmptyString
  | String a s' =>
      match lstrip s with
      | EmptyString => EmptyString
      | String _ _ => String a (rstrip s')
      end
  end.

(** [s.strip()]. *)
Definition strip (s : string) : string := rstrip (lstrip s).

(** [LLMClient.generate]. *)
Definition generate (self : LLMClient) (prompt : string)
  (provider : option string) (kwargs : list (string * value)) : M string :=
  let selected_provider := or_else provider (default_provider self) in
  if negb (str_in selected_provider SUPPORTED_PROVIDERS) then
    raise (ValueError
             ("Unsupported provider: " ++ selected_provider ++ ". " ++
              "Supported providers are: " ++ join ", " SUPPORTED_PROVIDERS))
  else
    match assoc selected_provider (clients self) with
    | None =>
        raise (ValueError
                 ("Provider " ++ selected_provider ++ " is not configured. " ++
                  "Configured providers are: " ++
                  join ", " (keys (clients self))))
    | Some llm =>
        match llm prompt kwargs with
        | inr (RStr response) => ret (strip response)
        | inr (RObj str_response) => ret str_response
        | inl e =>
            raise (RuntimeError
                     ("Failed to generate response: " ++ str_of_exn e))
        end
    end.

End LLM.

(* ================================================================== *)
(** * The outcome of a FastAPI handler *)
(* ================================================================== *)

(** A handler returns a body, raises [HTTPException], or lets another
    exception escape. *)
Inductive http (A : Type) : Type :=
| Ok (body : A)
| HTTPException (status_code : Z) (detail : string)
| Escaped (e : exn).

Arguments Ok {A} body.
Arguments HTTPException {A} status_code detail.
Arguments Escaped {A} e.

(* ================================================================== *)
(** * packages/shared/src/my_personal_assistant_shared/types/llm.py *)
(* ================================================================== *)

Module Shared.

Inductive LLMProvider : Type := OPENAI | VERTEX | CLAUDE.

(** [provider.value]. *)
Definition value_of (p : LLMProvider) : string :=
  match p with
  | OPENAI => "openai"
  | VERTEX => "vertex"
  | CLAUDE => "claude"
  end.

(** [LLMProvider(s)]: the member of that value, or [ValueError]. *)
Definition LLMProvider_of (s : string) : M LLMProvider :=
  if String.eqb s "openai" then ret OPENAI
  else if String.eqb s "vertex" then ret VERTEX
  else if String.eqb s "claude" then ret CLAUDE
  else raise (ValueError ("'" ++ s ++ "' is not a valid LLMProvider")).

Record LLMRequest : Type := mkLLMRequest {
  prompt : string;
  provider : option LLMProvider;
  parameters : list (string * value)
}.

Record LLMResponse : Type := mkLLMResponse {
  text : string;
  used : LLMProvider;
  metadata : list (string * string)
}.

End Shared.

(* ================================================================== *)
(** * packages/shared/src/my_personal_assistant_shared/types/jira.py *)
(* ================================================================== *)

Module SharedJira.

Inductive JiraIssueStatus : Type :=
| TO_DO | IN_PROGRESS | IN_REVIEW | DONE | BLOCKED.

(** [status.value]. *)
Definition value_of (s : JiraIssueStatus) : string :=
  match s with
  | TO_DO => "To Do"
  | IN_PROGRESS => "In Progress"
  | IN_REVIEW => "In Review"
  | DONE => "Done"
  | BLOCKED => "Blocked"
  end.

End SharedJira.

(* ================================================================== *)
(** * packages/api/src/my_personal_assistant_api/main.py *)
(* ================================================================== *)

Module Main.

Import Shared.

(** The module-level [llm_client]: the constructed client, or [None] when
    construction raised [ConfigurationError].  main.py imports the class
    under the module path core.llm_client; its definition in the sources
    is the one of jira_assistant/llm_client.py, module [LLM] above. *)
Definition llm_client (env : LLM.Env) : option LLM.LLMClient :=
  match LLM.__init__ env with
  | inr c => Some c
  | inl _ => None
  end.

(** The named parameters of [LLMClient.generate]. *)
Definition named_parameters : list string := ["self"; "prompt"; "provider"].

(** The call [llm_client.generate(request.prompt, provider=provider_str,
    **request.parameters)]: a key of the parameters that bears the name
    of a parameter of [generate] gives that parameter a second value,
    and the call raises [TypeError] before the body of [generate] runs;
    the other keys are its [**kwargs]. *)
Definition call_generate (c : LLM.LLMClient) (prompt : string)
  (provider_str : option string) (parameters : list (string * value))
  : M string :=
  match find (fun kv => str_in (fst kv) named_parameters) parameters with
  | Some (k, _) =>
      raise (TypeError
               ("LLMClient.generate() got multiple values for " ++
                (if String.eqb k "provider" then "keyword argument '"
                 else "argument '") ++ k ++ "'"))
  | None => LLM.generate c prompt provider_str parameters
  end.

(** The body of the [try] block of [generate_text]. *)
Definition generate_text_body (c : LLM.LLMClient) (request : LLMRequest)
  : M LLMResponse :=
  let provider_str := option_map value_of (provider request) in
  response_text <-
    call_generate c (prompt request) provider_str (parameters request) ;;
  let used_provider := or_else provider_str (LLM.default_provider c) in
  p <- LLMProvider_of used_provider ;;
  ret (mkLLMResponse response_text p
         [("source", "my_personal_assistant_api")]).

(** [POST /generate]. *)
Definition generate_text (llm_client : option LLM.LLMClient)
  (request : LLMRequest) : http LLMResponse :=
  match llm_client with
  | None => HTTPException 503 "LLM client not initialized properly"
  | Some c =>
      match generate_text_body c request with
      | inr r => Ok r
      | inl e =>
          if is_ValueError e then HTTPException 400 (str_of_exn e)
          else if is_RuntimeError e then HTTPException 500 (str_of_exn e)
          else Escaped e
      end
  end.

(** [GET /health]. *)
Definition health_check (llm_client : option LLM.LLMClient)
  : http (list (string * string)) :=
  match llm_client with
  | None => HTTPException 503 "LLM client not initialized properly"
  | Some _ => Ok [("status", "healthy")]
  end.

End Main.

(* ================================================================== *)
(** * packages/api/src/my_personal_assistant_api/routers/jira.py *)
(* ================================================================== *)

Module Routers.

Record JiraIssue : Type := mkJiraIssue {
  id : string;
  key : string;
  summary : string;
  issue_type : string;
  status : string;
  assignee : option string;
  labels : list string
}.

(** Truthiness of a decoded JSON value. *)
Definition json_truthy (j : json) : bool :=
  match j with
  | JNull => false
  | JBool b => b
  | JNum n => negb (n =? 0)%Z
  | JStr s => negb (String.eqb s "")
  | JArr l => match l with [] => false | _ => true end
  | JObj d => match d with [] => false | _ => true end
  end.

(** Field validation of the response model: a [str] field. *)
Definition as_str (j : json) : M string :=
  match j with
  | JStr s => ret s
  | _ => raise (ValidationError "Input should be a valid string")
  end.

(** An [Optional[str]] field. *)
Definition as_optional_str (j : json) : M (option string) :=
  match j with
  | JNull => ret None
  | JStr s => ret (Some s)
  | _ => raise (ValidationError "Input should be a valid string")
  end.

Fixpoint all_str (l : list json) : M (list string) :=
  match l with
  | [] => ret []
  | j :: l' => s <- as_str j ;; r <- all_str l' ;; ret (s :: r)
  end.

(** A [List[str]] field. *)
Definition as_str_list (j : json) : M (list string) :=
  match j with
  | JArr l => all_str l
  | _ => raise (ValidationError "Input should be a valid list")
  end.

(** One element of the list comprehension: the [JiraIssue(...)] call,
    its arguments evaluated left to right and then validated. *)
Definition to_JiraIssue (issue : json) : M JiraIssue :=
  a_id <- getitem issue "id" ;;
  a_key <- getitem issue "key" ;;
  f <- getitem issue "fields" ;;
  a_summary <- getitem f "summary" ;;
  f <- getitem issue "fields" ;;
  it <- getitem f "issuetype" ;;
  a_issue_type <- getitem it "name" ;;
  f <- getitem issue "fields" ;;
  st <- getitem f "status" ;;
  a_status <- getitem st "name" ;;
  f <- getitem issue "fields" ;;
  asg <- getitem f "assignee" ;;
  a_assignee <- (if json_truthy asg then getitem asg "name" else ret JNull) ;;
  f <- getitem issue "fields" ;;
  a_labels <- getitem f "labels" ;;
  v_id <- as_str a_id ;;
  v_key <- as_str a_key ;;
  v_summary <- as_str a_summary ;;
  v_issue_type <- as_str a_issue_type ;;
  v_status <- as_str a_status ;;
  v_assignee <- as_optional_str a_assignee ;;
  v_labels <- as_str_list a_labels ;;
  ret (mkJiraIssue v_id v_key v_summary v_issue_type v_status v_assignee
         v_labels).

Fixpoint comprehension (issues : list json) : M (list JiraIssue) :=
  match issues with
  | [] => ret []
  | issue :: rest =>
      x <- to_JiraIssue issue ;; r <- comprehension rest ;; ret (x :: r)
  end.

(** [[JiraIssue(...) for issue in issues]] on whatever the client
    returned: a list is walked; an empty string or dict yields nothing;
    a non-empty string or dict yields strings, which cannot be indexed by
    name; anything else is not iterable. *)
Definition shape (issues : json) : M (list JiraIssue) :=
  match issues with
  | JArr l => comprehension l
  | JStr EmptyString => ret []
  | JObj [] => ret []
  | JStr _ | JObj _ => raise (TypeError "string indices must be integers")
  | _ => raise (TypeError "object is not iterable")
  end.

(** The shared shape of the three handlers: the [try] block and the
    [except Exception] clause. *)
Definition handler (fetch : M json) : http (list JiraIssue) :=
  match (issues <- fetch ;; shape issues) with
  | inr body => Ok body
  | inl e => HTTPException 500 (str_of_exn e)
  end.

(** [GET /jira/epics]. *)
Definition get_epics (transport : Transport) (labels : option (list string))
  (assignee status : option string) : http (list JiraIssue) :=
  handler (Clients.get_epics transport labels assignee status).

(** [GET /jira/stories]. *)
Definition get_stories (transport : Transport) (labels : option (list string))
  (assignee status : option string) : http (list JiraIssue) :=
  handler (Clients.get_stories transport labels assignee status).

(** [GET /jira/tasks]. *)
Definition get_tasks (transport : Transport) (labels : option (list string))
  (assignee status : option string) : http (list JiraIssue) :=
  handler (Clients.get_tasks transport labels assignee status).

End Routers.

(* ================================================================== *)
(** * The vocabulary of the specification *)
(* ================================================================== *)

Module Spec.

(** [sub] occurs in [s]. *)
Definition contains (sub s : string) : Prop :=
  exists pre post, s = pre ++ sub ++ post.

(** The same as a test. *)
Fixpoint infix (sub s : string) : bool :=
  String.prefix sub s ||
  match s with
  | EmptyString => false
  | String _ s' => infix sub s'
  end.

(** A Filter Set: five independently optional fields. *)
Record FilterSet : Type := mkFilterSet {
  project_key : option string;
  issue_types : option (list string);
  labels : option (list string);
  assignee : option string;
  status : option string
}.

(** The builder called with the fields of a Filter Set as keyword
    arguments. *)
Definition build (fs : FilterSet) : M string :=
  Core._build_jql_query (project_key fs) (issue_types fs) (labels fs)
    (assignee fs) (status fs).

(** The Status Allow-List. *)
Definition allow_list : list string :=
  ["To Do"; "In Progress"; "Done"; "Backlog"; "Selected for Development"].

Definition quoted (s : string) : string := dq ++ s ++ dq.

Definition quoted_list (l : list string) : string :=
  join ", " (map quoted l).

Definition project_clause (k : string) : string := "project = " ++ k.

Definition issue_type_clause (l : list string) : string :=
  "issueType in (" ++ quoted_list l ++ ")".

Definition labels_clause (l : list string) : string :=
  "labels in (" ++ quoted_list l ++ ")".

Definition assignee_clause (a : string) : string :=
  "assignee = " ++ quoted a.

Definition status_clause (s : string) : string :=
  "status = " ++ quoted s.

(** The clause of an optional field: a field is present when it is
    neither [None] nor empty, which is how the sources test it. *)
Definition clause_of (f : string -> string) (o : option string)
  : list string :=
  match truthy o with
  | Some v => [f v]
  | None => []
  end.

Definition clause_of_list (f : list string -> string)
  (o : option (list string)) : list string :=
  match truthy_list o with
  | Some v => [f v]
  | None => []
  end.

(** The clauses of the fields other than the status, in the fixed order
    project, issue-type, labels, assignee. *)
Definition clauses_before_status (fs : FilterSet) : list string :=
  (clause_of project_clause (project_key fs) ++
   clause_of_list issue_type_clause (issue_types fs) ++
   clause_of_list labels_clause (labels fs) ++
   clause_of assignee_clause (assignee fs))%list.

(** The clauses of the fields that are present, status last. *)
Definition present_clauses (fs : FilterSet) : list string :=
  (clauses_before_status fs ++ clause_of status_clause (status fs))%list.

(** The query the contract of the builder describes. *)
Definition joined_clauses (fs : FilterSet) : string :=
  join " AND " (present_clauses fs).

(** None of the five fields is set. *)
Definition nothing_set (fs : FilterSet) : Prop :=
  truthy (project_key fs) = None /\ truthy_list (issue_types fs) = None /\
  truthy_list (labels fs) = None /\ truthy (assignee fs) = None /\
  truthy (status fs) = None.

(** The status of the Filter Set is absent or in the allow-list. *)
Definition status_acceptable (fs : FilterSet) : Prop :=
  forall s, truthy (status fs) = Some s -> In s allow_list.

(** Status categories of HTTP responses. *)
Inductive category : Type := Success | ClientError | ServerError | Other.

Definition category_of (status_code : Z) : category :=
  if ((200 <=? status_code) && (status_code <? 300))%Z then Success
  else if ((400 <=? status_code) && (status_code <? 500))%Z then ClientError
  else if ((500 <=? status_code) && (status_code <? 600))%Z then ServerError
  else Other.

(** The category of what the client of the web API receives; an
    exception that escapes a handler is answered with status 500. *)
Definition response_category {A : Type} (h : http A) : category :=
  match h with
  | Ok _ => Success
  | HTTPException c _ => category_of c
  | Escaped _ => ServerError
  end.

(** The environment variable that holds the credential of a backend. *)
Definition credential_of (provider : string) : string :=
  if String.eqb provider "openai" then "OPENAI_API_KEY"
  else if String.eqb provider "vertex" then "GOOGLE_CLOUD_PROJECT"
  else "ANTHROPIC_API_KEY".

(** The SDK constructor of a backend. *)
Definition constructor_of (env : LLM.Env) (provider : string)
  : string -> M LLM.BaseLLM :=
  if String.eqb provider "openai" then LLM.ChatOpenAI env
  else if String.eqb provider "vertex" then LLM.VertexAI env
  else LLM.Anthropic env.

(** A backend initializes successfully: its credential is present and
    its constructor does not raise. *)
Definition initializes (env : LLM.Env) (provider : string) : bool :=
  match truthy (LLM.getenv env (credential_of provider)) with
  | Some credential =>
      match constructor_of env provider credential with
      | inr _ => true
      | inl _ => false
      end
  | None => false
  end.

(** The registry entry of a backend: one entry when it initializes
    successfully, none otherwise. *)
Definition backend_entry (env : LLM.Env) (provider : string)
  : list (string * LLM.BaseLLM) :=
  match truthy (LLM.getenv env (credential_of provider)) with
  | Some credential =>
      match constructor_of env provider credential with
      | inr llm => [(provider, llm)]
      | inl _ => []
      end
  | None => []
  end.

(** The Generation Backend Registry: the backends that initialize, in
    the priority order of the supported providers. *)
Definition registry (env : LLM.Env) : list (string * LLM.BaseLLM) :=
  flat_map (backend_entry env) LLM.SUPPORTED_PROVIDERS.




(** The request of a task fetch of the core client, when the query
    builder accepts the filters. *)
Definition core_tasks_request (project_key : option string)
  (labels : option (list string)) (assignee status : option string)
  (fields : option (list string)) : M Request :=
  jql <- Core._build_jql_query project_key (Some ["Task"; "Sub-task"])
           labels assignee status ;;
  ret (mkRequest "GET" "search" (Core.search_params jql fields None None)).

(** The request of a fetch of the router client for an issue type. *)
Definition clients_request (issue_type : string)
  (labels : option (list string)) (assignee status : option string)
  : Request :=
  mkRequest "GET" "rest/api/2/search"
    [("jql", VStr (Clients._build_jql_query issue_type labels assignee
                     status));
     ("maxResults", VInt 100)].

(** The request of a task fetch of the router client. *)
Definition clients_tasks_request (labels : option (list string))
  (assignee status : option string) : Request :=
  clients_request "Task" labels assignee status.

(** An exception is one of the two [FilterValidationError] classes. *)
Definition is_FilterValidationError (e : exn) : bool :=
  match e with
  | Core_FilterValidationError _ | Clients_FilterValidationError _ => true
  | _ => false
  end.


(** The payload with which the tracker describes an issue. *)
Definition payload_of (i : Routers.JiraIssue) : json :=
  JObj
    [("id", JStr (Routers.id i));
     ("key", JStr (Routers.key i));
     ("fields",
      JObj
        [("summary", JStr (Routers.summary i));
         ("issuetype", JObj [("name", JStr (Routers.issue_type i))]);
         ("status", JObj [("name", JStr (Routers.status i))]);
         ("assignee",
          match Routers.assignee i with
          | Some a => JObj [("name", JStr a)]
          | None => JNull
          end);
         ("labels", JArr (map JStr (Routers.labels i)))])].

(** The free-form parameters of a request hold a key that collides with
    a named parameter of [generate]. *)
Definition collides (parameters : list (string * value)) : bool :=
  existsb (fun kv => str_in (fst kv) Main.named_parameters) parameters.

(** The first supported provider, in priority order, that initializes. *)
Definition first_initialized (env : LLM.Env) : option string :=
  find (initializes env) LLM.SUPPORTED_PROVIDERS.

End Spec.

(* ================================================================== *)
(** * Lemmas on strings and on the Python idioms *)
(* ================================================================== *)

Lemma truthy_Some (o : option string) (s : string) :
  truthy o = Some s <-> o = Some s /\ s <> "".
Proof.
  destruct o as [[|c r]|]; simpl; split.
  - discriminate.
  - intros [H Hne]. inversion H; subst. now elim Hne.
  - intros H. now inversion H.
  - now intros [H _].
  - discriminate.
  - now intros [H _].
Qed.

Lemma str_in_In (s : string) (l : list string) :
  str_in s l = true <-> In s l.
Proof.
  unfold str_in. rewrite existsb_exists. split.
  - intros [x [Hx He]]. apply String.eqb_eq in He. now subst.
  - intros H. exists s. split; [assumption | apply String.eqb_refl].
Qed.

Lemma str_in_not_In (s : string) (l : list string) :
  str_in s l = false <-> ~ In s l.
Proof.
  rewrite <- str_in_In. destruct (str_in s l); split; intros H;
    try discriminate; try reflexivity; try (intros H'; discriminate).
  now elim H.
Qed.

Lemma append_assoc (a b c : string) : (a ++ b) ++ c = a ++ b ++ c.
Proof.
  induction a as [|x a IH]; simpl; [reflexivity | now rewrite IH].
Qed.

Lemma append_nil_r (a : string) : a ++ "" = a.
Proof.
  induction a as [|x a IH]; simpl; [reflexivity | now rewrite IH].
Qed.

Lemma contains_refl (s : string) : Spec.contains s s.
Proof.
  exists "", "". simpl. now rewrite append_nil_r.
Qed.

Lemma contains_append_l (sub a b : string) :
  Spec.contains sub a -> Spec.contains sub (a ++ b).
Proof.
  intros [pre [post H]]. exists pre, (post ++ b). subst a.
  now rewrite !append_assoc.
Qed.

Lemma contains_append_r (sub a b : string) :
  Spec.contains sub b -> Spec.contains sub (a ++ b).
Proof.
  intros [pre [post H]]. exists (a ++ pre), post. subst b.
  now rewrite !append_assoc.
Qed.

(** Every element of a joined list occurs in the result. *)
Lemma contains_join (sep x : string) (l : list string) :
  In x l -> Spec.contains x (join sep l).
Proof.
  unfold join. induction l as [|y l IH]; intros H; [contradiction|].
  destruct H as [H|H].
  - subst y. destruct l as [|z l]; simpl.
    + apply contains_refl.
    + apply contains_append_l, contains_refl.
  - destruct l as [|z l]; [contradiction|].
    change (String.concat sep (y :: z :: l))
      with (y ++ sep ++ String.concat sep (z :: l)).
    apply contains_append_r, contains_append_r, IH, H.
Qed.

Lemma prefix_append (a b : string) : String.prefix a (a ++ b) = true.
Proof.
  induction a as [|x a IH]; simpl.
  - now destruct b.
  - destruct (ascii_dec x x) as [_|N]; [assumption | now elim N].
Qed.

Lemma infix_unfold (sub s : string) :
  Spec.infix sub s =
  String.prefix sub s ||
  match s with
  | EmptyString => false
  | String _ s' => Spec.infix sub s'
  end.
Proof.
  destruct s; reflexivity.
Qed.

(** The test [Spec.infix] finds every occurrence. *)
Lemma contains_infix (sub s : string) :
  Spec.contains sub s -> Spec.infix sub s = true.
Proof.
  intros [pre [post H]]. subst s.
  induction pre as [|x pre IH].
  - rewrite infix_unfold. simpl append. now rewrite prefix_append.
  - change (String x pre ++ sub ++ post) with (String x (pre ++ sub ++ post)).
    rewrite infix_unfold, IH. apply orb_true_r.
Qed.

(** Joining a non-empty list with one more part. *)
Lemma join_snoc (sep x y : string) (l : list string) :
  join sep (list_append (x :: l) y) = join sep (x :: l) ++ sep ++ y.
Proof.
  unfold join, list_append. revert x.
  induction l as [|z l IH]; intros x.
  - reflexivity.
  - change (String.concat sep ((x :: z :: l) ++ [y])%list)
      with (x ++ sep ++ String.concat sep ((z :: l) ++ [y])%list).
    rewrite (IH z).
    change (String.concat sep (x :: z :: l))
      with (x ++ sep ++ String.concat sep (z :: l)).
    now rewrite !append_assoc.
Qed.

(* ================================================================== *)
(** * The core query builder *)
(* ================================================================== *)

(** The two outcomes of the builder: the sequence of appends of the
    source, read as one list, and the only [raise] of the function. *)
Lemma core_build_outcome (fs : Spec.FilterSet) :
  Spec.build fs =
  match truthy (Spec.status fs) with
  | Some st =>
      if str_in st Core.allowed_statuses then
        inr (join " AND "
               (Spec.clauses_before_status fs ++ [Spec.status_clause st])%list)
      else
        inl (Core_FilterValidationError
               (("Invalid status: '" ++ st ++ "'. ") ++
                "Allowed statuses are: " ++ join ", " Core.allowed_statuses))
  | None => inr (join " AND " (Spec.clauses_before_status fs))
  end.
Proof.
  destruct fs as [pk its lbs asg st].
  unfold Spec.build, Core._build_jql_query, Spec.clauses_before_status,
    Spec.clause_of, Spec.clause_of_list.
  cbn [Spec.project_key Spec.issue_types Spec.labels Spec.assignee
       Spec.status].
  destruct (truthy pk) as [v1|], (truthy_list its) as [v2|],
    (truthy_list lbs) as [v3|], (truthy asg) as [v4|], (truthy st) as [v5|];
    try destruct (str_in v5 Core.allowed_statuses); reflexivity.
Qed.

Lemma present_clauses_status (fs : Spec.FilterSet) (s : string) :
  truthy (Spec.status fs) = Some s ->
  Spec.present_clauses fs =
  (Spec.clauses_before_status fs ++ [Spec.status_clause s])%list.
Proof.
  intros H. unfold Spec.present_clauses, Spec.clause_of. now rewrite H.
Qed.

Lemma present_clauses_no_status (fs : Spec.FilterSet) :
  truthy (Spec.status fs) = None ->
  Spec.present_clauses fs = Spec.clauses_before_status fs.
Proof.
  intros H. unfold Spec.present_clauses, Spec.clause_of. rewrite H.
  apply app_nil_r.
Qed.

Lemma allow_list_nonempty (s : string) : In s Spec.allow_list -> s <> "".
Proof.
  simpl. intuition (subst; discriminate).
Qed.

Lemma invalid_status_message (s : string) :
  let msg := ("Invalid status: '" ++ s ++ "'. ") ++
             "Allowed statuses are: " ++ join ", " Spec.allow_list in
  Spec.contains s msg /\
  Spec.contains (join ", " Spec.allow_list) msg /\
  (forall a, In a Spec.allow_list -> Spec.contains a msg).
Proof.
  intros msg. subst msg. split; [|split].
  - apply contains_append_l, contains_append_r, contains_append_l,
      contains_refl.
  - apply contains_append_r, contains_append_r, contains_refl.
  - intros a Ha. apply contains_append_r, contains_append_r.
    now apply contains_join.
Qed.

(** C1 (as amended).  For every Filter Set whose status is absent or in
    the allow-list, the core query builder returns exactly the " AND "
    join of the clauses of the fields that are present, in the order
    project, issue-type, labels, assignee, status; when none of the five
    fields is set the result is the empty string. *)
Theorem core_build_joins_present_clauses (fs : Spec.FilterSet) :
  (Spec.status_acceptable fs ->
   Spec.build fs = inr (Spec.joined_clauses fs)) /\
  (Spec.nothing_set fs -> Spec.build fs = inr "").
Proof.
  split.
  - intros Hok. rewrite core_build_outcome. unfold Spec.joined_clauses.
    destruct (truthy (Spec.status fs)) as [s|] eqn:E.
    + apply Hok in E as Hin. apply str_in_In in Hin.
      change Core.allowed_statuses with Spec.allow_list. rewrite Hin.
      now rewrite (present_clauses_status fs s E).
    + now rewrite (present_clauses_no_status fs E).
  - intros (Hp & Hi & Hl & Ha & Hs). rewrite core_build_outcome, Hs.
    unfold Spec.clauses_before_status, Spec.clause_of, Spec.clause_of_list.
    now rewrite Hp, Hi, Hl, Ha.
Qed.

Lemma core_build_joins_present_clauses_witness :
  Spec.build
    (Spec.mkFilterSet (Some "PROJ") None (Some ["frontend"; "urgent"]) None
       (Some "To Do")) =
  inr (Spec.joined_clauses
         (Spec.mkFilterSet (Some "PROJ") None (Some ["frontend"; "urgent"])
            None (Some "To Do"))) /\
  Spec.build (Spec.mkFilterSet (Some "") (Some []) None None None) = inr "".
Proof.
  split.
  - apply (proj1 (core_build_joins_present_clauses _)).
    intros s H. inversion H. simpl. auto.
  - apply (proj2 (core_build_joins_present_clauses _)).
    repeat split; reflexivity.
Defined.

(** C1 (as stated) fails: on a Filter Set whose status is outside the
    allow-list the builder returns no string at all, it raises. *)
Lemma core_build_invalid_status_returns_nothing :
  Spec.build (Spec.mkFilterSet None None None None (Some "Invalid Status"))
  <> inr (Spec.joined_clauses
            (Spec.mkFilterSet None None None None (Some "Invalid Status"))) /\
  Spec.build (Spec.mkFilterSet None None None None (Some "Invalid Status")) =
  inl (Core_FilterValidationError
         ("Invalid status: 'Invalid Status'. Allowed statuses are: " ++
          "To Do, In Progress, Done, Backlog, Selected for Development")).
Proof.
  split; [discriminate | reflexivity].
Qed.

(** C2.  The core query builder raises [FilterValidationError] if and
    only if a status is supplied (neither [None] nor empty) that is not
    in the allow-list; it raises nothing else; the message contains the
    invalid value, the allow-list as a whole and each of its members,
    and no string is returned on that path; for every status of the
    allow-list, "Backlog" among them, nothing is raised and the quoted
    clause [status = "<value>"] is the last clause of the result. *)
Theorem core_build_status_validation (fs : Spec.FilterSet) :
  ((exists msg, Spec.build fs = inl (Core_FilterValidationError msg)) <->
   (exists s, Spec.status fs = Some s /\ s <> "" /\
              ~ In s Spec.allow_list)) /\
  (forall e, Spec.build fs = inl e ->
     exists s, Spec.status fs = Some s /\
       e = Core_FilterValidationError (str_of_exn e) /\
       Spec.contains s (str_of_exn e) /\
       Spec.contains (join ", " Spec.allow_list) (str_of_exn e) /\
       (forall a, In a Spec.allow_list -> Spec.contains a (str_of_exn e)) /\
       (forall q, Spec.build fs <> inr q)) /\
  (forall s, Spec.status fs = Some s -> In s Spec.allow_list ->
     Spec.build fs =
     inr (join " AND "
            (app (Spec.clauses_before_status fs)
               ["status = " ++ dq ++ s ++ dq]))) /\
  Spec.build (Spec.mkFilterSet None None None None (Some "Backlog")) =
  inr ("status = " ++ dq ++ "Backlog" ++ dq).
Proof.
  pose proof (core_build_outcome fs) as Hb.
  change Core.allowed_statuses with Spec.allow_list in Hb.
  split; [|split; [|split]].
  - split.
    + intros [msg Hmsg]. rewrite Hmsg in Hb.
      destruct (truthy (Spec.status fs)) as [s|] eqn:E; [|discriminate].
      destruct (str_in s Spec.allow_list) eqn:Hin; [discriminate|].
      apply truthy_Some in E as [E1 E2]. apply str_in_not_In in Hin.
      exists s. auto.
    + intros (s & Hs & Hne & Hnot).
      assert (E : truthy (Spec.status fs) = Some s)
        by (apply truthy_Some; auto).
      apply str_in_not_In in Hnot. rewrite E, Hnot in Hb. eauto.
  - intros e He. rewrite He in Hb.
    destruct (truthy (Spec.status fs)) as [s|] eqn:E; [|discriminate].
    destruct (str_in s Spec.allow_list) eqn:Hin; [discriminate|].
    apply truthy_Some in E as [E1 E2].
    assert (He' : e = Core_FilterValidationError
                        (("Invalid status: '" ++ s ++ "'. ") ++
                         "Allowed statuses are: " ++
                         join ", " Spec.allow_list)) by congruence.
    rewrite He'. cbn [str_of_exn].
    destruct (invalid_status_message s) as (M1 & M2 & M3).
    exists s. repeat split; try assumption.
    + intros q Hq. rewrite He in Hq. discriminate.
  - intros s Hs Hin.
    assert (E : truthy (Spec.status fs) = Some s)
      by (apply truthy_Some; split; [assumption | now apply allow_list_nonempty]).
    apply str_in_In in Hin. now rewrite E, Hin in Hb.
  - reflexivity.
Qed.

Lemma core_build_status_validation_witness :
  (exists msg,
     Spec.build (Spec.mkFilterSet None None None None (Some "Invalid Status"))
     = inl (Core_FilterValidationError msg)) /\
  (exists s,
     Some "Invalid Status" = Some s /\
     Spec.contains s
       (str_of_exn
          (Core_FilterValidationError
             ("Invalid status: 'Invalid Status'. Allowed statuses are: " ++
              "To Do, In Progress, Done, Backlog, Selected for Development"))))
  /\
  Spec.build (Spec.mkFilterSet (Some "TEST") None None None (Some "Done")) =
  inr (join " AND " ["project = TEST"; "status = " ++ dq ++ "Done" ++ dq]).
Proof.
  pose (bad := Spec.mkFilterSet None None None None (Some "Invalid Status")).
  pose (good := Spec.mkFilterSet (Some "TEST") None None None (Some "Done")).
  split; [|split].
  - apply (proj2 (proj1 (core_build_status_validation bad))).
    exists "Invalid Status". split; [reflexivity|]. split; [discriminate|].
    simpl. intuition discriminate.
  - destruct (proj1 (proj2 (core_build_status_validation bad)) _ eq_refl)
      as (s & Hs & _ & Hc & _).
    exists s. split; [exact Hs | exact Hc].
  - apply (proj1 (proj2 (proj2 (core_build_status_validation good)))
             "Done" eq_refl).
    simpl. auto.
Defined.

(** C3.  Each clause of the core query builder has the shape of the
    contract: the project unquoted, the issue types and the labels as a
    parenthesised list of quoted names in the order of the input, the
    assignee quoted; and the two scenarios of the specification yield
    the exact strings it gives. *)
Theorem core_build_clause_shapes :
  (forall c k,
     Core._build_jql_query (Some (String c k)) None None None None =
     inr ("project = " ++ String c k)) /\
  (forall t ts,
     Core._build_jql_query None (Some (t :: ts)) None None None =
     inr ("issueType in (" ++
          join ", " (map (fun x => dq ++ x ++ dq) (t :: ts)) ++ ")")) /\
  (forall t1 t2 t3,
     Core._build_jql_query None (Some [t1; t2; t3]) None None None =
     inr ("issueType in (" ++ dq ++ t1 ++ dq ++ ", " ++ dq ++ t2 ++ dq ++
          ", " ++ dq ++ t3 ++ dq ++ ")")) /\
  (forall l ls,
     Core._build_jql_query None None (Some (l :: ls)) None None =
     inr ("labels in (" ++
          join ", " (map (fun x => dq ++ x ++ dq) (l :: ls)) ++ ")")) /\
  (forall l1 l2,
     Core._build_jql_query None None (Some [l1; l2]) None None =
     inr ("labels in (" ++ dq ++ l1 ++ dq ++ ", " ++ dq ++ l2 ++ dq ++ ")")) /\
  (forall c a,
     Core._build_jql_query None None None (Some (String c a)) None =
     inr ("assignee = " ++ dq ++ String c a ++ dq)) /\
  Core._build_jql_query (Some "PROJ") None (Some ["frontend"; "urgent"]) None
    (Some "To Do") =
  inr ("project = PROJ AND labels in (" ++ dq ++ "frontend" ++ dq ++ ", " ++
       dq ++ "urgent" ++ dq ++ ") AND status = " ++ dq ++ "To Do" ++ dq) /\
  Core._build_jql_query None (Some ["Bug"]) None None None =
  inr ("issueType in (" ++ dq ++ "Bug" ++ dq ++ ")").
Proof.
  repeat split; intros; try reflexivity;
    unfold Core._build_jql_query, join, dq; cbn;
    repeat (rewrite !append_assoc; cbn); reflexivity.
Qed.

(* ================================================================== *)
(** * The two fetch clients *)
(* ================================================================== *)

(** The query of the router client: the issue-type clause first, then
    the clauses of the optional fields. *)
Lemma clients_build_outcome (it : string) (labels : option (list string))
  (assignee status : option string) :
  Clients._build_jql_query it labels assignee status =
  join " AND "
    (("issuetype = " ++ dq ++ it ++ dq) ::
     app (Spec.clause_of_list Spec.labels_clause labels)
       (app (Spec.clause_of Spec.assignee_clause assignee)
          (Spec.clause_of Spec.status_clause status))).
Proof.
  unfold Clients._build_jql_query, Spec.clause_of, Spec.clause_of_list.
  destruct (truthy_list labels), (truthy assignee), (truthy status);
    reflexivity.
Qed.

Lemma join_cons_prefix (sep x : string) (l : list string) :
  exists tail, join sep (x :: l) = x ++ tail.
Proof.
  destruct l as [|y l].
  - exists "". simpl. now rewrite append_nil_r.
  - exists (sep ++ join sep (y :: l)). reflexivity.
Qed.

(** The task query of the core client starts with the project clause or
    with the clause of its two issue types, and carries the latter. *)
Lemma core_tasks_query_shape (pk : option string)
  (labels : option (list string)) (assignee status : option string)
  (jql : string) :
  Core._build_jql_query pk (Some ["Task"; "Sub-task"]) labels assignee status
  = inr jql ->
  (exists tail, jql = "project = " ++ tail \/ jql = "issueType in (" ++ tail) /\
  Spec.contains (Spec.issue_type_clause ["Task"; "Sub-task"]) jql.
Proof.
  intros H.
  pose proof (core_build_outcome
                (Spec.mkFilterSet pk (Some ["Task"; "Sub-task"]) labels
                   assignee status)) as Hb.
  unfold Spec.build in Hb.
  cbn [Spec.project_key Spec.issue_types Spec.labels Spec.assignee
       Spec.status] in Hb.
  rewrite H in Hb. clear H.
  assert (Hshape : forall extra,
            exists first rest,
              (Spec.clauses_before_status
                 (Spec.mkFilterSet pk (Some ["Task"; "Sub-task"]) labels
                    assignee status) ++ extra)%list = first :: rest /\
              (exists tail, first = "project = " ++ tail \/
                            first = "issueType in (" ++ tail) /\
              In (Spec.issue_type_clause ["Task"; "Sub-task"])
                 (first :: rest)).
  { intros extra. unfold Spec.clauses_before_status, Spec.clause_of,
      Spec.clause_of_list. simpl.
    destruct (truthy pk) as [v|]; simpl; eexists; eexists;
      (split; [reflexivity|]); split.
    - exists v. now left.
    - right. now left.
    - eexists. right. reflexivity.
    - now left. }
  assert (Hjql : exists extra,
            jql = join " AND "
                    (Spec.clauses_before_status
                       (Spec.mkFilterSet pk (Some ["Task"; "Sub-task"])
                          labels assignee status) ++ extra)%list).
  { destruct (truthy status) as [s|].
    - destruct (str_in s Core.allowed_statuses); [|discriminate].
      eexists. inversion Hb. reflexivity.
    - exists []. rewrite app_nil_r. now inversion Hb. }
  destruct Hjql as [extra Hjql].
  destruct (Hshape extra) as (first & rest & Heq & [tail Hfirst] & Hin).
  rewrite Heq in Hjql. subst jql. split.
  - destruct (join_cons_prefix " AND " first rest) as [t Ht]. rewrite Ht.
    destruct Hfirst as [Hf|Hf]; rewrite Hf, append_assoc; eauto.
  - now apply contains_join.
Qed.

Lemma clients_tasks_query_shape (labels : option (list string))
  (assignee status : option string) :
  exists tail,
    Clients._build_jql_query "Task" labels assignee status =
    ("issuetype = " ++ dq ++ "Task" ++ dq) ++ tail.
Proof.
  rewrite clients_build_outcome. apply join_cons_prefix.
Qed.

(** C4.  The two fetch-client variants are not equivalent.  For the same
    caller-supplied filters, a task fetch of the core client sends a
    query that carries the issue types "Task" and "Sub-task" with page
    size 50, a task fetch of the router client sends a query that starts
    with the single issue type "Task" with page size 100: the two
    requests differ in the query string and in the page size. *)
Theorem task_fetch_variants_differ
  (transport : Transport) (project_key : option string)
  (labels : option (list string)) (assignee status : option string)
  (fields : option (list string)) (r : Request) :
  Spec.core_tasks_request project_key labels assignee status fields = inr r ->
  let r' := Spec.clients_tasks_request labels assignee status in
  Core.get_tasks transport project_key labels assignee status fields =
    (response_data <- transport r 0%nat ;;
     dict_get response_data "issues" (JArr [])) /\
  Clients.get_tasks transport labels assignee status =
    (response <- Clients.retry 3 (transport r') 0%nat ;;
     dict_get response "issues" (JArr [])) /\
  (exists jql jql',
     assoc "jql" (req_params r) = Some (VStr jql) /\
     assoc "jql" (req_params r') = Some (VStr jql') /\
     jql <> jql' /\
     Spec.contains
       ("issueType in (" ++ dq ++ "Task" ++ dq ++ ", " ++
        dq ++ "Sub-task" ++ dq ++ ")") jql /\
     String.prefix ("issuetype = " ++ dq ++ "Task" ++ dq) jql' = true) /\
  assoc "maxResults" (req_params r) = Some (VInt 50) /\
  assoc "maxResults" (req_params r') = Some (VInt 100) /\
  r <> r'.
Proof.
  intros H r'. unfold Spec.core_tasks_request in H.
  destruct (Core._build_jql_query project_key (Some ["Task"; "Sub-task"])
              labels assignee status) as [e|jql] eqn:Hq; [discriminate|].
  simpl in H. inversion H; subst r; clear H.
  destruct (core_tasks_query_shape _ _ _ _ _ Hq) as [[tail Hhead] Hcontains].
  destruct (clients_tasks_query_shape labels assignee status) as [tail' Ht'].
  assert (Hdiff : jql <>
                  Clients._build_jql_query "Task" labels assignee status).
  { rewrite Ht'. destruct Hhead as [Hh|Hh]; rewrite Hh; discriminate. }
  assert (Hmax : assoc "maxResults"
                   (Core.search_params jql fields None None) =
                 Some (VInt 50)).
  { unfold Core.search_params. now destruct (truthy_list fields). }
  repeat split.
  - unfold Core.get_tasks. rewrite Hq. reflexivity.
  - exists jql, (Clients._build_jql_query "Task" labels assignee status).
    repeat split.
    + unfold Core.search_params. now destruct (truthy_list fields).
    + exact Hdiff.
    + exact Hcontains.
    + rewrite Ht'. apply prefix_append.
  - exact Hmax.
  - intros Heq. apply (f_equal req_endpoint) in Heq. discriminate.
Qed.

Lemma task_fetch_variants_differ_witness :
  exists r,
    Spec.core_tasks_request None (Some ["backend"]) (Some "test-user")
      (Some "To Do") None = inr r /\
    assoc "maxResults" (req_params r) = Some (VInt 50) /\
    assoc "maxResults"
      (req_params
         (Spec.clients_tasks_request (Some ["backend"]) (Some "test-user")
            (Some "To Do"))) = Some (VInt 100) /\
    assoc "jql" (req_params r) <>
    assoc "jql"
      (req_params
         (Spec.clients_tasks_request (Some ["backend"]) (Some "test-user")
            (Some "To Do"))).
Proof.
  eexists. split; [reflexivity|].
  destruct (task_fetch_variants_differ (fun _ _ => inr JNull) None
              (Some ["backend"]) (Some "test-user") (Some "To Do") None _
              eq_refl)
    as (_ & _ & (jql & jql' & H1 & H2 & Hne & _) & H50 & H100 & _).
  split; [exact H50|]. split; [exact H100|].
  rewrite H1, H2. intros Heq. apply Hne. now inversion Heq.
Defined.

(* ================================================================== *)
(** * The text-generation gateway *)
(* ================================================================== *)

(** The three initializers, run in order on an empty dict, build the
    registry. *)
Lemma init_clients (env : LLM.Env) :
  LLM._initialize_claude env
    (LLM._initialize_vertex env (LLM._initialize_openai env [])) =
  Spec.registry env.
Proof.
  unfold LLM._initialize_claude, LLM._initialize_vertex,
    LLM._initialize_openai, Spec.registry, Spec.backend_entry,
    Spec.credential_of, Spec.constructor_of, LLM.SUPPORTED_PROVIDERS.
  cbn.
  destruct (truthy (LLM.getenv env "OPENAI_API_KEY")) as [k1|];
    [destruct (LLM.ChatOpenAI env k1)|];
    (destruct (truthy (LLM.getenv env "GOOGLE_CLOUD_PROJECT")) as [k2|];
       [destruct (LLM.VertexAI env k2)|]);
    (destruct (truthy (LLM.getenv env "ANTHROPIC_API_KEY")) as [k3|];
       [destruct (LLM.Anthropic env k3)|]);
    reflexivity.
Qed.

Lemma init_outcome (env : LLM.Env) :
  LLM.__init__ env =
  match Spec.registry env with
  | [] =>
      inl (ConfigurationError
             ("No LLM providers configured. Please set up credentials for " ++
              "at least one of the supported providers: " ++
              join ", " LLM.SUPPORTED_PROVIDERS))
  | (first, _) :: _ => inr (LLM.mkLLMClient (Spec.registry env) first)
  end.
Proof.
  unfold LLM.__init__. rewrite init_clients. reflexivity.
Qed.

Lemma backend_entry_initializes (env : LLM.Env) (p : string) :
  Spec.backend_entry env p = [] <-> Spec.initializes env p = false.
Proof.
  unfold Spec.backend_entry, Spec.initializes.
  destruct (truthy (LLM.getenv env (Spec.credential_of p))) as [k|];
    [destruct (Spec.constructor_of env p k)|]; split; intros H;
    try reflexivity; discriminate.
Qed.

Lemma registry_empty (env : LLM.Env) :
  Spec.registry env = [] <->
  (forall p, In p LLM.SUPPORTED_PROVIDERS -> Spec.initializes env p = false).
Proof.
  unfold Spec.registry. split.
  - intros H p Hp. apply backend_entry_initializes.
    induction LLM.SUPPORTED_PROVIDERS as [|q l IH]; [contradiction|].
    simpl in H. apply app_eq_nil in H as [H1 H2].
    destruct Hp as [Hp|Hp]; [now subst q | now apply IH].
  - intros H. induction LLM.SUPPORTED_PROVIDERS as [|q l IH]; [reflexivity|].
    simpl. rewrite IH by (intros p Hp; apply H; now right).
    rewrite (proj2 (backend_entry_initializes env q))
      by (apply H; now left).
    reflexivity.
Qed.

(** The keys of the registry are supported providers that initialized. *)
Lemma registry_keys (env : LLM.Env) (p : string) :
  In p (LLM.keys (Spec.registry env)) <->
  In p LLM.SUPPORTED_PROVIDERS /\ Spec.initializes env p = true.
Proof.
  unfold Spec.registry, LLM.keys.
  induction LLM.SUPPORTED_PROVIDERS as [|q l IH].
  - simpl. tauto.
  - simpl flat_map. rewrite map_app, in_app_iff, IH. simpl In.
    assert (Hq : In p (map fst (Spec.backend_entry env q)) <->
                 q = p /\ Spec.initializes env p = true).
    { unfold Spec.backend_entry, Spec.initializes. split.
      - destruct (truthy (LLM.getenv env (Spec.credential_of q))) as [k|] eqn:E;
          [destruct (Spec.constructor_of env q k) eqn:C|]; simpl;
          try contradiction.
        intros [<-|[]]. rewrite E, C. auto.
      - intros [<- H].
        destruct (truthy (LLM.getenv env (Spec.credential_of q))) as [k|];
          [destruct (Spec.constructor_of env q k)|]; try discriminate.
        now left. }
    rewrite Hq. tauto.
Qed.

Lemma assoc_None_keys {A : Type} (k : string) (d : list (string * A)) :
  assoc k d = None <-> ~ In k (LLM.keys d).
Proof.
  induction d as [|[k' v] d IH]; simpl.
  - tauto.
  - destruct (String.eqb k k') eqn:E.
    + apply String.eqb_eq in E. subst k'. split; [discriminate|].
      intros H. elim H. now left.
    + apply String.eqb_neq in E. rewrite IH. split.
      * intros H [H'|H']; [now elim E | now elim H].
      * intros H H'. apply H. now right.
Qed.

(** C5.  If no text-generation backend initializes successfully (its
    credential is absent or its initialization fails), constructing the
    client raises [ConfigurationError] with a message that names every
    supported provider (openai, vertex, claude); if at least one backend
    initializes, construction succeeds. *)
Theorem init_requires_one_backend (env : LLM.Env) :
  ((forall p, In p LLM.SUPPORTED_PROVIDERS ->
              Spec.initializes env p = false) ->
   exists msg,
     LLM.__init__ env = inl (ConfigurationError msg) /\
     Spec.contains "openai" msg /\ Spec.contains "vertex" msg /\
     Spec.contains "claude" msg /\
     (forall p, In p LLM.SUPPORTED_PROVIDERS -> Spec.contains p msg)) /\
  ((exists p, In p LLM.SUPPORTED_PROVIDERS /\
              Spec.initializes env p = true) ->
   exists c, LLM.__init__ env = inr c).
Proof.
  rewrite init_outcome. split.
  - intros H. apply registry_empty in H. rewrite H.
    eexists. split; [reflexivity|].
    assert (Hall : forall p, In p LLM.SUPPORTED_PROVIDERS ->
              Spec.contains p
                ("No LLM providers configured. Please set up credentials for "
                 ++ "at least one of the supported providers: " ++
                 join ", " LLM.SUPPORTED_PROVIDERS)).
    { intros p Hp. apply contains_append_r, contains_append_r.
      now apply contains_join. }
    split; [|split; [|split]]; apply Hall || exact Hall; simpl; tauto.
  - intros (p & Hp & Hi).
    destruct (Spec.registry env) as [|[first llm] rest] eqn:E.
    + rewrite (proj1 (registry_empty env) E p Hp) in Hi. discriminate.
    + eauto.
Qed.

Lemma init_requires_one_backend_witness :
  (exists msg,
     LLM.__init__
       (LLM.mkEnv (fun _ => None) (fun _ => inl (BackendError "unreachable"))
          (fun _ => inl (BackendError "unreachable"))
          (fun _ => inl (BackendError "unreachable"))) =
     inl (ConfigurationError msg) /\ Spec.contains "claude" msg) /\
  (exists c,
     LLM.__init__
       (LLM.mkEnv
          (fun v => if String.eqb v "ANTHROPIC_API_KEY" then Some "sk" else None)
          (fun _ => inl (BackendError "unreachable"))
          (fun _ => inl (BackendError "unreachable"))
          (fun _ => inr (fun p _ => inr (LLM.RStr p)))) = inr c).
Proof.
  split.
  - destruct (proj1 (init_requires_one_backend
                       (LLM.mkEnv (fun _ => None)
                          (fun _ => inl (BackendError "unreachable"))
                          (fun _ => inl (BackendError "unreachable"))
                          (fun _ => inl (BackendError "unreachable")))))
      as (msg & H & _ & _ & Hc & _).
    + intros p Hp. reflexivity.
    + exists msg. split; [exact H | exact Hc].
  - apply (proj2 (init_requires_one_backend _)).
    exists "claude". split; [simpl; tauto | reflexivity].
Defined.

Lemma or_else_explicit (name default : string) :
  name <> "" -> or_else (Some name) default = name.
Proof.
  intros H. unfold or_else.
  now rewrite (proj2 (truthy_Some (Some name) name) (conj eq_refl H)).
Qed.

(** The outcome of [generate] once the provider is selected. *)
Lemma generate_outcome (c : LLM.LLMClient) (prompt : string)
  (provider : option string) (kwargs : list (string * value)) :
  let selected := or_else provider (LLM.default_provider c) in
  LLM.generate c prompt provider kwargs =
  if str_in selected LLM.SUPPORTED_PROVIDERS then
    match assoc selected (LLM.clients c) with
    | None =>
        inl (ValueError
               ("Provider " ++ selected ++ " is not configured. " ++
                "Configured providers are: " ++
                join ", " (LLM.keys (LLM.clients c))))
    | Some llm =>
        match llm prompt kwargs with
        | inr (LLM.RStr response) => inr (LLM.strip response)
        | inr (LLM.RObj str_response) => inr str_response
        | inl e =>
            inl (RuntimeError
                   ("Failed to generate response: " ++ str_of_exn e))
        end
    end
  else
    inl (ValueError
           ("Unsupported provider: " ++ selected ++ ". " ++
            "Supported providers are: " ++ join ", " LLM.SUPPORTED_PROVIDERS)).
Proof.
  intros selected. unfold LLM.generate. fold selected.
  destruct (str_in selected LLM.SUPPORTED_PROVIDERS); reflexivity.
Qed.

(** A client built by [__init__] holds the registry, and its default
    provider is the first key of the registry. *)
Lemma init_client (env : LLM.Env) (c : LLM.LLMClient) :
  LLM.__init__ env = inr c ->
  LLM.clients c = Spec.registry env /\
  In (LLM.default_provider c) (LLM.keys (LLM.clients c)).
Proof.
  rewrite init_outcome.
  destruct (Spec.registry env) as [|[first llm] rest] eqn:E; [discriminate|].
  intros H. inversion H; subst c. simpl. split; [reflexivity | now left].
Qed.

Lemma missing_credential_not_configured (env : LLM.Env) (c : LLM.LLMClient)
  (name : string) :
  LLM.__init__ env = inr c ->
  truthy (LLM.getenv env (Spec.credential_of name)) = None ->
  assoc name (LLM.clients c) = None.
Proof.
  intros Hc Hcred. apply init_client in Hc as [Hreg _]. rewrite Hreg.
  apply assoc_None_keys. intros Hin. apply registry_keys in Hin as [_ Hi].
  unfold Spec.initializes in Hi. rewrite Hcred in Hi. discriminate.
Qed.

(** C6.  For every call of [generate] with an explicit backend name (a
    provider argument that is neither [None] nor empty): a name that is
    not among the supported providers raises a [ValueError] whose message
    names the supported backends; a supported name that is not
    configured - as is any name whose credential was missing at
    construction - raises a [ValueError] whose message names the
    configured backends; in all other cases no [ValueError] is raised,
    the outcome is the generated text or a [RuntimeError]. *)
Theorem generate_provider_selection (c : LLM.LLMClient) (prompt name : string)
  (kwargs : list (string * value)) :
  name <> "" ->
  (~ In name LLM.SUPPORTED_PROVIDERS ->
   exists msg,
     LLM.generate c prompt (Some name) kwargs = inl (ValueError msg) /\
     Spec.contains (join ", " LLM.SUPPORTED_PROVIDERS) msg /\
     (forall p, In p LLM.SUPPORTED_PROVIDERS -> Spec.contains p msg)) /\
  (In name LLM.SUPPORTED_PROVIDERS ->
   assoc name (LLM.clients c) = None ->
   exists msg,
     LLM.generate c prompt (Some name) kwargs = inl (ValueError msg) /\
     Spec.contains (join ", " (LLM.keys (LLM.clients c))) msg /\
     (forall k, In k (LLM.keys (LLM.clients c)) -> Spec.contains k msg)) /\
  (forall env,
     LLM.__init__ env = inr c ->
     truthy (LLM.getenv env (Spec.credential_of name)) = None ->
     assoc name (LLM.clients c) = None) /\
  (In name LLM.SUPPORTED_PROVIDERS ->
   assoc name (LLM.clients c) <> None ->
   (forall msg,
      LLM.generate c prompt (Some name) kwargs <> inl (ValueError msg)) /\
   ((exists text, LLM.generate c prompt (Some name) kwargs = inr text) \/
    (exists msg,
       LLM.generate c prompt (Some name) kwargs = inl (RuntimeError msg)))).
Proof.
  intros Hne.
  pose proof (generate_outcome c prompt (Some name) kwargs) as Hg.
  cbv zeta in Hg. rewrite (or_else_explicit name _ Hne) in Hg.
  split; [|split; [|split]].
  - intros Hns. apply str_in_not_In in Hns. rewrite Hns in Hg.
    eexists. split; [exact Hg|]. split.
    + do 4 apply contains_append_r. apply contains_refl.
    + intros p Hp. do 4 apply contains_append_r. now apply contains_join.
  - intros Hs Hnc. apply str_in_In in Hs. rewrite Hs, Hnc in Hg.
    eexists. split; [exact Hg|]. split.
    + do 4 apply contains_append_r. apply contains_refl.
    + intros k Hk. do 4 apply contains_append_r. now apply contains_join.
  - intros env Hc Hcred.
    exact (missing_credential_not_configured env c name Hc Hcred).
  - intros Hs Hconf. apply str_in_In in Hs. rewrite Hs in Hg.
    destruct (assoc name (LLM.clients c)) as [llm|]; [|now elim Hconf].
    destruct (llm prompt kwargs) as [e|[s|o]]; rewrite Hg; split;
      try (intros msg; discriminate); eauto.
Qed.

Lemma generate_provider_selection_witness :
  exists c,
    LLM.__init__
      (LLM.mkEnv
         (fun v => if String.eqb v "OPENAI_API_KEY" then Some "sk" else None)
         (fun _ => inr (fun p _ => inr (LLM.RStr p)))
         (fun _ => inl (BackendError "unreachable"))
         (fun _ => inl (BackendError "unreachable"))) = inr c /\
    LLM.default_provider c = "openai" /\
    (exists msg,
       LLM.generate c "hello" (Some "gemini") [] = inl (ValueError msg) /\
       Spec.contains "openai, vertex, claude" msg) /\
    (exists msg,
       LLM.generate c "hello" (Some "claude") [] = inl (ValueError msg) /\
       Spec.contains "openai" msg) /\
    (forall msg, LLM.generate c "hello" (Some "openai") [] <>
                 inl (ValueError msg)).
Proof.
  eexists. split; [reflexivity|]. split; [reflexivity|].
  match goal with
  | |- (exists m, LLM.generate ?c _ _ _ = _ /\ _) /\ _ => set (client := c)
  end.
  split; [|split].
  - destruct (proj1 (generate_provider_selection client "hello" "gemini" []
                       ltac:(discriminate)))
      as (msg & H & Hc & _).
    + simpl. intuition discriminate.
    + exists msg. split; [exact H | exact Hc].
  - destruct (proj1 (proj2 (generate_provider_selection client "hello"
                              "claude" [] ltac:(discriminate))))
      as (msg & H & Hc & _).
    + simpl. tauto.
    + reflexivity.
    + exists msg. split; [exact H | exact Hc].
  - apply (proj2 (proj2 (proj2 (generate_provider_selection client "hello"
                                  "openai" [] ltac:(discriminate))))).
    + simpl. tauto.
    + discriminate.
Defined.

(** ** Stripping *)

















(* ================================================================== *)
(** * The core search operation *)
(* ================================================================== *)

(** C8.  [search_issues] of the core client defaults to result offset 0
    and page size 50; when no explicit field list is given it requests
    exactly the fields summary, status, assignee, labels, issuetype,
    priority, reporter, created, updated, duedate, parent; when an
    explicit list is given it requests exactly those fields, joined by
    commas.  (An empty list counts as no list, and explicit offsets and
    page sizes are passed on.) *)
Theorem search_issues_defaults (transport : Transport) (jql : string) :
  (forall fields start_at max_results,
     Core.search_issues transport jql fields start_at max_results =
     transport
       (mkRequest "GET" "search"
          (Core.search_params jql fields start_at max_results)) 0%nat) /\
  (forall fields start_at max_results,
     assoc "jql" (Core.search_params jql fields start_at max_results) =
     Some (VStr jql)) /\
  (forall fields max_results,
     assoc "startAt" (Core.search_params jql fields None max_results) =
     Some (VInt 0)) /\
  (forall fields start_at,
     assoc "maxResults" (Core.search_params jql fields start_at None) =
     Some (VInt 50)) /\
  (forall start_at max_results,
     assoc "fields" (Core.search_params jql None start_at max_results) =
     Some (VStr (join ","
                   ["summary"; "status"; "assignee"; "labels"; "issuetype";
                    "priority"; "reporter"; "created"; "updated"; "duedate";
                    "parent"]))) /\
  (forall f fs start_at max_results,
     assoc "fields"
       (Core.search_params jql (Some (f :: fs)) start_at max_results) =
     Some (VStr (join "," (f :: fs)))) /\
  (forall start_at max_results,
     Core.search_params jql (Some []) start_at max_results =
     Core.search_params jql None start_at max_results) /\
  (forall fields n m,
     assoc "startAt" (Core.search_params jql fields (Some n) (Some m)) =
     Some (VInt n) /\
     assoc "maxResults" (Core.search_params jql fields (Some n) (Some m)) =
     Some (VInt m)) /\
  Core.search_params jql None None None =
  [("jql", VStr jql); ("startAt", VInt 0); ("maxResults", VInt 50);
   ("fields",
    VStr ("summary,status,assignee,labels,issuetype,priority,reporter," ++
          "created,updated,duedate,parent"))].
Proof.
  unfold Core.search_issues, Core._request, Core.search_params.
  repeat split; intros;
    try destruct (truthy_list fields); reflexivity.
Qed.

(* ================================================================== *)
(** * The web API *)
(* ================================================================== *)

Lemma handler_never_client_error (fetch : M json) :
  Spec.response_category (Routers.handler fetch) = Spec.Success \/
  Spec.response_category (Routers.handler fetch) = Spec.ServerError.
Proof.
  unfold Routers.handler.
  destruct (issues <- fetch ;; Routers.shape issues); simpl; auto.
Qed.

(** [generate] raises nothing but [ValueError] and [RuntimeError]. *)
Lemma generate_raises (c : LLM.LLMClient) (prompt : string)
  (provider : option string) (kwargs : list (string * value)) (e : exn) :
  LLM.generate c prompt provider kwargs = inl e ->
  (exists m, e = ValueError m) \/ (exists m, e = RuntimeError m).
Proof.
  rewrite generate_outcome. cbv zeta.
  destruct (str_in _ LLM.SUPPORTED_PROVIDERS).
  - destruct (assoc _ (LLM.clients c)) as [llm|].
    + destruct (llm prompt kwargs) as [e'|[s|o]]; intros H; inversion H; eauto.
    + intros H. inversion H. eauto.
  - intros H. inversion H. eauto.
Qed.

Lemma find_existsb {A : Type} (f : A -> bool) (l : list A) :
  (find f l = None <-> existsb f l = false) /\
  (forall x, find f l = Some x -> f x = true /\ existsb f l = true).
Proof.
  induction l as [|y l [IH1 IH2]]; simpl.
  - split; [tauto | discriminate].
  - destruct (f y) eqn:E; simpl.
    + split; [split; discriminate|]. intros x H. inversion H; subst. auto.
    + split; assumption.
Qed.

(** The call site of [generate]: a colliding key raises [TypeError],
    otherwise [generate] runs. *)
Lemma call_generate_outcome (c : LLM.LLMClient) (prompt : string)
  (provider_str : option string) (parameters : list (string * value)) :
  (Spec.collides parameters = false ->
   Main.call_generate c prompt provider_str parameters =
   LLM.generate c prompt provider_str parameters) /\
  (Spec.collides parameters = true ->
   exists m,
     Main.call_generate c prompt provider_str parameters =
     inl (TypeError m)).
Proof.
  unfold Main.call_generate, Spec.collides.
  destruct (find_existsb (fun kv => str_in (fst kv) Main.named_parameters)
              parameters) as [Hn Hs].
  destruct (find _ parameters) as [[k v]|] eqn:F.
  - destruct (Hs _ eq_refl) as [_ He]. rewrite He.
    split; [discriminate | eauto].
  - rewrite (proj1 Hn eq_refl). split; [reflexivity | discriminate].
Qed.

Lemma generate_text_body_raises (c : LLM.LLMClient)
  (request : Shared.LLMRequest) (e : exn) :
  Main.generate_text_body c request = inl e ->
  (exists m, e = ValueError m) \/ (exists m, e = RuntimeError m) \/
  ((exists m, e = TypeError m) /\
   Spec.collides (Shared.parameters request) = true).
Proof.
  unfold Main.generate_text_body.
  destruct (call_generate_outcome c (Shared.prompt request)
              (option_map Shared.value_of (Shared.provider request))
              (Shared.parameters request)) as [Hno Hyes].
  destruct (Spec.collides (Shared.parameters request)).
  - destruct (Hyes eq_refl) as [m ->]. simpl. intros H. inversion H. eauto.
  - rewrite (Hno eq_refl).
    destruct (LLM.generate c _ _ _) as [e'|text] eqn:G; simpl.
    + intros H. inversion H; subst e'.
      destruct (generate_raises _ _ _ _ _ G) as [Hv|Hr]; auto.
    + unfold Shared.LLMProvider_of.
      repeat match goal with
             | |- context [if ?b then _ else _] => destruct b
             end; simpl; intros H; inversion H; eauto.
Qed.

(** C9 (as stated) fails: a failure caused by an invalid status is
    answered with a server-error status, not a client-error one - the
    router client sends the status unvalidated, the tracker rejects the
    query, and the handler answers 500; and a request for a provider
    that is not configured is answered with a client-error status, not a
    server-error one. *)
Lemma invalid_status_is_answered_with_500 :
  let rejecting : Transport :=
    fun _ _ => inl (HTTPStatusError 400 "Bad Request") in
  (exists detail,
     Routers.get_epics rejecting None None (Some "Invalid Status") =
     HTTPException 500 detail) /\
  Spec.response_category
    (Routers.get_epics rejecting None None (Some "Invalid Status")) <>
    Spec.ClientError /\
  Spec.response_category
    (Main.generate_text
       (Some (LLM.mkLLMClient
                [("openai", fun p _ => inr (LLM.RStr p))] "openai"))
       (Shared.mkLLMRequest "hello" (Some Shared.CLAUDE) [])) <>
    Spec.ServerError.
Proof.
  split; [eexists; reflexivity|].
  split; discriminate.
Qed.

Lemma value_of_supported (p : Shared.LLMProvider) :
  str_in (Shared.value_of p) LLM.SUPPORTED_PROVIDERS = true /\
  or_else (Some (Shared.value_of p)) = fun _ => Shared.value_of p.
Proof.
  destruct p; split; reflexivity.
Qed.

(** C9 (as amended).  The web API maps failures to HTTP statuses as
    follows.  [POST /generate] answers a [ValueError] - an unsupported or
    unconfigured provider name - with 400, a [RuntimeError] - a failure
    of the backend - with 500, and a missing client with 503; the one
    exception that escapes it is the [TypeError] of a request whose
    parameters hold a key named like a parameter of [generate], which
    the framework answers with a server-error status.  The handlers of
    the Jira router answer every exception raised during the fetch with
    500, a filter or status failure like a transport failure, and never
    with a client-error status. *)
Theorem api_error_mapping :
  (forall c request e,
     Main.generate_text_body c request = inl e ->
     is_ValueError e = true ->
     Main.generate_text (Some c) request =
     HTTPException 400 (str_of_exn e)) /\
  (forall c request e,
     Main.generate_text_body c request = inl e ->
     is_ValueError e = false -> is_RuntimeError e = true ->
     Main.generate_text (Some c) request =
     HTTPException 500 (str_of_exn e)) /\
  (forall request,
     Main.generate_text None request =
     HTTPException 503 "LLM client not initialized properly") /\
  (forall c request e,
     Main.generate_text (Some c) request = Escaped e ->
     (exists m, e = TypeError m) /\
     Spec.collides (Shared.parameters request) = true) /\
  (forall c request,
     Spec.collides (Shared.parameters request) = true ->
     (exists m, Main.generate_text (Some c) request = Escaped (TypeError m)) /\
     Spec.response_category (Main.generate_text (Some c) request) =
     Spec.ServerError) /\
  (forall c request p,
     Spec.collides (Shared.parameters request) = false ->
     Shared.provider request = Some p ->
     assoc (Shared.value_of p) (LLM.clients c) = None ->
     exists detail,
       Main.generate_text (Some c) request = HTTPException 400 detail) /\
  (forall c request p llm e,
     Spec.collides (Shared.parameters request) = false ->
     Shared.provider request = Some p ->
     assoc (Shared.value_of p) (LLM.clients c) = Some llm ->
     llm (Shared.prompt request) (Shared.parameters request) = inl e ->
     Main.generate_text (Some c) request =
     HTTPException 500 ("Failed to generate response: " ++ str_of_exn e)) /\
  (forall fetch e,
     fetch = inl e ->
     exists detail, Routers.handler fetch = HTTPException 500 detail) /\
  (forall transport labels assignee status e,
     (Clients.get_epics transport labels assignee status = inl e ->
      exists detail,
        Routers.get_epics transport labels assignee status =
        HTTPException 500 detail) /\
     (Clients.get_stories transport labels assignee status = inl e ->
      exists detail,
        Routers.get_stories transport labels assignee status =
        HTTPException 500 detail) /\
     (Clients.get_tasks transport labels assignee status = inl e ->
      exists detail,
        Routers.get_tasks transport labels assignee status =
        HTTPException 500 detail)) /\
  (forall transport labels assignee status,
     Spec.response_category
       (Routers.get_epics transport labels assignee status) <>
     Spec.ClientError /\
     Spec.response_category
       (Routers.get_stories transport labels assignee status) <>
     Spec.ClientError /\
     Spec.response_category
       (Routers.get_tasks transport labels assignee status) <>
     Spec.ClientError).
Proof.
  assert (Hh : forall fetch e,
             fetch = inl e ->
             exists detail, Routers.handler fetch = HTTPException 500 detail).
  { intros fetch e ->. eexists. reflexivity. }
  assert (Hn : forall fetch,
             Spec.response_category (Routers.handler fetch) <>
             Spec.ClientError).
  { intros fetch H.
    destruct (handler_never_client_error fetch) as [E|E];
      rewrite E in H; discriminate. }
  assert (Hesc : forall c request,
             Spec.collides (Shared.parameters request) = true ->
             exists m,
               Main.generate_text (Some c) request = Escaped (TypeError m)).
  { intros c request Hc. unfold Main.generate_text, Main.generate_text_body.
    destruct (proj2 (call_generate_outcome c (Shared.prompt request)
                       (option_map Shared.value_of (Shared.provider request))
                       (Shared.parameters request)) Hc) as [m ->].
    simpl. eauto. }
  repeat match goal with |- _ /\ _ => split end.
  - intros c request e H Hv. unfold Main.generate_text. now rewrite H, Hv.
  - intros c request e H Hv Hr. unfold Main.generate_text.
    now rewrite H, Hv, Hr.
  - reflexivity.
  - intros c request e. unfold Main.generate_text.
    destruct (Main.generate_text_body c request) as [e'|r] eqn:B;
      [|discriminate].
    destruct (generate_text_body_raises c request e' B)
      as [[m ->]|[[m ->]|[[m ->] Hc]]]; simpl; try discriminate.
    intros H. inversion H. eauto.
  - intros c request Hc. destruct (Hesc c request Hc) as [m Hm].
    split; [eauto|]. rewrite Hm. reflexivity.
  - intros c request p Hc Hp Hnone. unfold Main.generate_text,
      Main.generate_text_body. rewrite Hp. simpl option_map.
    rewrite (proj1 (call_generate_outcome _ _ _ _) Hc).
    rewrite generate_outcome. cbv zeta.
    destruct (value_of_supported p) as [Hs Ho]. rewrite Ho, Hs, Hnone.
    simpl. eauto.
  - intros c request p llm e Hc Hp Hsome Hfail. unfold Main.generate_text,
      Main.generate_text_body. rewrite Hp. simpl option_map.
    rewrite (proj1 (call_generate_outcome _ _ _ _) Hc).
    rewrite generate_outcome. cbv zeta.
    destruct (value_of_supported p) as [Hs Ho].
    rewrite Ho, Hs, Hsome, Hfail. reflexivity.
  - exact Hh.
  - intros transport labels assignee status e.
    repeat split; intros H; eapply Hh; exact H.
  - intros transport labels assignee status. repeat split; apply Hn.
Qed.

Lemma api_error_mapping_witness :
  let c := LLM.mkLLMClient
             [("openai", fun _ _ => inl (BackendError "timeout"))] "openai" in
  Main.generate_text (Some c)
    (Shared.mkLLMRequest "hello" (Some Shared.CLAUDE) []) =
  HTTPException 400
    "Provider claude is not configured. Configured providers are: openai" /\
  Main.generate_text (Some c) (Shared.mkLLMRequest "hello" None []) =
  HTTPException 500 "Failed to generate response: timeout" /\
  (exists detail,
     Main.generate_text (Some c)
       (Shared.mkLLMRequest "hello" (Some Shared.VERTEX)
          [("temperature", VInt 1)]) =
     HTTPException 400 detail) /\
  Main.generate_text (Some c)
    (Shared.mkLLMRequest "hello" (Some Shared.OPENAI) []) =
  HTTPException 500 "Failed to generate response: timeout" /\
  (exists m,
     Main.generate_text (Some c)
       (Shared.mkLLMRequest "hello" None [("provider", VStr "openai")]) =
     Escaped (TypeError m)) /\
  (exists detail,
     Routers.get_tasks (fun _ _ => inl (RequestError "connection refused"))
       None None None =
     HTTPException 500 detail).
Proof.
  intros c.
  destruct api_error_mapping
    as (H400 & H500 & _ & _ & Hesc & Hunconf & Hfail & _ & Hr & _).
  split; [|split; [|split; [|split; [|split]]]].
  - apply (H400 c _ (ValueError _)); reflexivity.
  - apply (H500 c _ (RuntimeError _)); reflexivity.
  - apply (Hunconf c _ Shared.VERTEX); reflexivity.
  - apply (Hfail c _ Shared.OPENAI (fun _ _ => inl (BackendError "timeout"))
             (BackendError "timeout")); reflexivity.
  - apply (Hesc c). reflexivity.
  - destruct (Hr (fun _ _ => inl (RequestError "connection refused"))
                 None None None (RetryError "connection refused"))
      as (_ & _ & Ht).
    apply Ht. reflexivity.
Defined.

(* ================================================================== *)
(** * The query builder of the router client *)
(* ================================================================== *)

Lemma retry_raises (stop_after : nat) (call : nat -> M json) (n : nat)
  (e : exn) :
  Clients.retry stop_after call n = inl e -> exists m, e = RetryError m.
Proof.
  revert n. induction stop_after as [|k IH]; intros n; simpl.
  - intros H. inversion H. eauto.
  - destruct (call n) as [e'|v]; [|discriminate].
    destruct k as [|k'].
    + intros H. inversion H. eauto.
    + apply IH.
Qed.

Lemma retry_first_attempt (call : nat -> M json) (v : json) :
  call 0%nat = inr v -> Clients.retry 3 call 0 = inr v.
Proof.
  intros H. simpl. now rewrite H.
Qed.

(** What a fetch of the router client can raise: the [RetryError] of
    the transport, or an [AttributeError] on a response that is not a
    dict. *)
Lemma clients_fetch_raises (transport : Transport) (r : Request) (e : exn) :
  (response <- Clients.retry 3 (transport r) 0%nat ;;
   dict_get response "issues" (JArr [])) = inl e ->
  Spec.is_FilterValidationError e = false.
Proof.
  destruct (Clients.retry 3 (transport r) 0) as [e'|v] eqn:R; simpl.
  - intros H. inversion H; subst e'.
    apply retry_raises in R as [m ->]. reflexivity.
  - unfold dict_get. destruct v; try (intros H; inversion H; reflexivity).
    destruct (assoc "issues" members); discriminate.
Qed.

(** C10 (as stated) fails on the empty status string, for which no
    status clause is emitted. *)
Lemma clients_build_skips_empty_status :
  Clients._build_jql_query "Epic" None None (Some "") =
  "issuetype = " ++ dq ++ "Epic" ++ dq /\
  ~ Spec.contains ("status = " ++ dq ++ "" ++ dq)
      (Clients._build_jql_query "Epic" None None (Some "")).
Proof.
  split; [reflexivity|].
  intros H. apply contains_infix in H. vm_compute in H. discriminate.
Qed.

(** C10 (as amended).  The query builder of the router client performs
    no status allow-list validation: for every non-empty status string,
    in the allow-list or not, it appends the clause [status = "<status>"]
    verbatim to the other conditions (an empty status is treated as
    absent); no fetch of that client raises [FilterValidationError],
    whatever the status, and the request always reaches the transport,
    so that no status is rejected before the network on the endpoints
    /jira/epics, /jira/stories and /jira/tasks. *)
Theorem clients_build_no_status_validation (transport : Transport)
  (labels : option (list string)) (assignee : option string) :
  (forall issue_type s,
     s <> "" ->
     Clients._build_jql_query issue_type labels assignee (Some s) =
     Clients._build_jql_query issue_type labels assignee None ++
     " AND " ++ "status = " ++ dq ++ s ++ dq) /\
  (forall issue_type,
     Clients._build_jql_query issue_type labels assignee (Some "") =
     Clients._build_jql_query issue_type labels assignee None) /\
  (forall status e,
     Clients.get_epics transport labels assignee status = inl e \/
     Clients.get_stories transport labels assignee status = inl e \/
     Clients.get_tasks transport labels assignee status = inl e ->
     Spec.is_FilterValidationError e = false) /\
  (forall status page,
     (transport (Spec.clients_request "Epic" labels assignee status) 0%nat =
      inr page ->
      Clients.get_epics transport labels assignee status =
      dict_get page "issues" (JArr []) /\
      Routers.get_epics transport labels assignee status =
      Routers.handler (dict_get page "issues" (JArr []))) /\
     (transport (Spec.clients_request "Story" labels assignee status) 0%nat =
      inr page ->
      Clients.get_stories transport labels assignee status =
      dict_get page "issues" (JArr []) /\
      Routers.get_stories transport labels assignee status =
      Routers.handler (dict_get page "issues" (JArr []))) /\
     (transport (Spec.clients_request "Task" labels assignee status) 0%nat =
      inr page ->
      Clients.get_tasks transport labels assignee status =
      dict_get page "issues" (JArr []) /\
      Routers.get_tasks transport labels assignee status =
      Routers.handler (dict_get page "issues" (JArr [])))).
Proof.
  split; [|split; [|split]].
  - intros it s Hne. rewrite !clients_build_outcome.
    unfold Spec.clause_of at 2 4.
    rewrite (proj2 (truthy_Some (Some s) s) (conj eq_refl Hne)).
    cbn [truthy]. rewrite !app_nil_r.
    rewrite <- join_snoc. unfold list_append.
    now rewrite <- !app_comm_cons, <- app_assoc.
  - intros it. reflexivity.
  - intros status e [H|[H|H]];
      unfold Clients.get_epics, Clients.get_stories, Clients.get_tasks,
        Clients._make_request in H;
      eapply clients_fetch_raises; exact H.
  - intros status page.
    assert (Hfetch : forall it,
              transport (Spec.clients_request it labels assignee status)
                0%nat = inr page ->
              (response <-
                 Clients.retry 3
                   (transport
                      (Spec.clients_request it labels assignee status))
                   0%nat ;;
               dict_get response "issues" (JArr [])) =
              dict_get page "issues" (JArr [])).
    { intros it H. now rewrite (retry_first_attempt _ _ H). }
    split; [|split]; intros H; apply Hfetch in H;
      unfold Routers.get_epics, Routers.get_stories, Routers.get_tasks;
      unfold Clients.get_epics, Clients.get_stories, Clients.get_tasks,
        Clients._make_request;
      unfold Spec.clients_request in H; rewrite H; split; reflexivity.
Qed.

Lemma clients_build_no_status_validation_witness :
  Clients._build_jql_query "Epic" None None (Some "Invalid Status") =
  "issuetype = " ++ dq ++ "Epic" ++ dq ++ " AND status = " ++ dq ++
  "Invalid Status" ++ dq /\
  Routers.get_epics
    (fun _ _ => inr (JObj [("issues", JArr []); ("total", JNum 0)]))
    None None (Some "Invalid Status") = Ok [] /\
  Spec.is_FilterValidationError (RetryError "Bad Request") = false.
Proof.
  pose (t := (fun _ _ => inr (JObj [("issues", JArr []); ("total", JNum 0)]))
             : Transport).
  pose (rejecting := (fun _ _ => inl (HTTPStatusError 400 "Bad Request"))
                     : Transport).
  split; [|split].
  - exact (proj1 (clients_build_no_status_validation t None None) "Epic"
             "Invalid Status" ltac:(discriminate)).
  - destruct (proj2 (proj2 (proj2
                (clients_build_no_status_validation t None None)))
                (Some "Invalid Status")
                (JObj [("issues", JArr []); ("total", JNum 0)]))
      as ((_ & H) & _).
    + reflexivity.
    + exact H.
  - apply (proj1 (proj2 (proj2
             (clients_build_no_status_validation rejecting None None)))
             (Some "Invalid Status")).
    left. reflexivity.
Defined.

(* ================================================================== *)
(** * Construction of the core client *)
(* ================================================================== *)







(* ================================================================== *)
(** * The fetch operations of the core client *)
(* ================================================================== *)

(** The builder rejects a supplied status outside the allow-list
    whatever the other filters are. *)
Lemma core_build_rejects (pk : option string)
  (its lbs : option (list string)) (asg : option string) (s : string) :
  s <> "" -> ~ In s Core.allowed_statuses ->
  Core._build_jql_query pk its lbs asg (Some s) =
  inl (Core_FilterValidationError
         (("Invalid status: '" ++ s ++ "'. ") ++
          "Allowed statuses are: " ++ join ", " Core.allowed_statuses)).
Proof.
  intros Hne Hnot.
  pose proof (core_build_outcome (Spec.mkFilterSet pk its lbs asg (Some s)))
    as Hb.
  unfold Spec.build in Hb.
  cbn [Spec.project_key Spec.issue_types Spec.labels Spec.assignee
       Spec.status] in Hb.
  rewrite (proj2 (truthy_Some (Some s) s) (conj eq_refl Hne)) in Hb.
  apply str_in_not_In in Hnot. now rewrite Hnot in Hb.
Qed.

(** X3.  The fetch operations of the core client validate before they
    touch the network: for a supplied status outside the allow-list,
    fetching epics, stories or tasks raises [FilterValidationError]
    whatever the transport would have answered. *)
Theorem core_fetch_validates_before_network (t1 t2 : Transport)
  (project_key : option string) (labels : option (list string))
  (assignee : option string) (s : string) (fields : option (list string)) :
  s <> "" -> ~ In s Core.allowed_statuses ->
  (exists msg,
     Core.get_epics t1 project_key labels assignee (Some s) fields =
     inl (Core_FilterValidationError msg) /\
     Core.get_epics t2 project_key labels assignee (Some s) fields =
     inl (Core_FilterValidationError msg) /\
     Core.get_stories t1 project_key labels assignee (Some s) fields =
     inl (Core_FilterValidationError msg) /\
     Core.get_stories t2 project_key labels assignee (Some s) fields =
     inl (Core_FilterValidationError msg) /\
     Core.get_tasks t1 project_key labels assignee (Some s) fields =
     inl (Core_FilterValidationError msg) /\
     Core.get_tasks t2 project_key labels assignee (Some s) fields =
     inl (Core_FilterValidationError msg) /\
     Spec.contains s msg).
Proof.
  intros Hne Hnot. eexists.
  unfold Core.get_epics, Core.get_stories, Core.get_tasks.
  rewrite !(core_build_rejects _ _ _ _ s Hne Hnot).
  repeat split.
  apply contains_append_l, contains_append_r, contains_append_l,
    contains_refl.
Qed.

Lemma core_fetch_validates_before_network_witness :
  exists msg,
    Core.get_epics (fun _ _ => inr (JObj [])) None None None
      (Some "In Review") None = inl (Core_FilterValidationError msg) /\
    Core.get_epics (fun _ _ => inl (RequestError "down")) None None None
      (Some "In Review") None = inl (Core_FilterValidationError msg).
Proof.
  destruct (core_fetch_validates_before_network
              (fun _ _ => inr (JObj [])) (fun _ _ => inl (RequestError "down"))
              None None None "In Review" None)
    as (msg & H1 & H2 & _).
  - discriminate.
  - simpl. intuition discriminate.
  - exists msg. split; assumption.
Defined.

(** X4.  The core client makes one attempt and neither retries nor
    translates: when the builder accepts the filters and the transport
    fails, each fetch operation raises the very exception of the first
    attempt, whatever later attempts would have given. *)
Theorem core_fetch_propagates_transport_failure (transport : Transport)
  (project_key : option string) (labels : option (list string))
  (assignee status : option string) (fields : option (list string))
  (e : exn) :
  (forall jql,
     Core._build_jql_query project_key (Some ["Epic"]) labels assignee status
     = inr jql ->
     transport
       (mkRequest "GET" "search" (Core.search_params jql fields None None))
       0%nat = inl e ->
     Core.get_epics transport project_key labels assignee status fields =
     inl e) /\
  (forall jql,
     Core._build_jql_query project_key (Some ["Story"]) labels assignee status
     = inr jql ->
     transport
       (mkRequest "GET" "search" (Core.search_params jql fields None None))
       0%nat = inl e ->
     Core.get_stories transport project_key labels assignee status fields =
     inl e) /\
  (forall jql,
     Core._build_jql_query project_key (Some ["Task"; "Sub-task"]) labels
       assignee status = inr jql ->
     transport
       (mkRequest "GET" "search" (Core.search_params jql fields None None))
       0%nat = inl e ->
     Core.get_tasks transport project_key labels assignee status fields =
     inl e).
Proof.
  unfold Core.get_epics, Core.get_stories, Core.get_tasks,
    Core.search_issues, Core._request.
  repeat split; intros jql Hq Ht; rewrite Hq; simpl; now rewrite Ht.
Qed.

Lemma core_fetch_propagates_transport_failure_witness :
  Core.get_tasks
    (fun _ n => match n with
                | O => inl (HTTPStatusError 500 "Server Error")
                | S _ => inr (JObj [])
                end)
    (Some "TEST") None None (Some "In Progress") None =
  inl (HTTPStatusError 500 "Server Error").
Proof.
  eapply (proj2 (proj2 (core_fetch_propagates_transport_failure _ _ _ _ _ _
                          _))); reflexivity.
Defined.

(** X5.  A fetch operation hands back the value under "issues" of the
    page the tracker answered with, and the empty list when the page has
    no such key; this holds for the core client (when the builder
    accepts the filters) and for the router client alike. *)
Theorem fetch_returns_issues_or_empty (transport : Transport)
  (project_key : option string) (labels : option (list string))
  (assignee status : option string) (fields : option (list string))
  (page : list (string * json)) :
  (forall jql,
     Core._build_jql_query project_key (Some ["Epic"]) labels assignee status
     = inr jql ->
     transport
       (mkRequest "GET" "search" (Core.search_params jql fields None None))
       0%nat = inr (JObj page) ->
     Core.get_epics transport project_key labels assignee status fields =
     inr (match assoc "issues" page with
          | Some issues => issues
          | None => JArr []
          end)) /\
  (forall jql,
     Core._build_jql_query project_key (Some ["Story"]) labels assignee status
     = inr jql ->
     transport
       (mkRequest "GET" "search" (Core.search_params jql fields None None))
       0%nat = inr (JObj page) ->
     Core.get_stories transport project_key labels assignee status fields =
     inr (match assoc "issues" page with
          | Some issues => issues
          | None => JArr []
          end)) /\
  (forall jql,
     Core._build_jql_query project_key (Some ["Task"; "Sub-task"]) labels
       assignee status = inr jql ->
     transport
       (mkRequest "GET" "search" (Core.search_params jql fields None None))
       0%nat = inr (JObj page) ->
     Core.get_tasks transport project_key labels assignee status fields =
     inr (match assoc "issues" page with
          | Some issues => issues
          | None => JArr []
          end)) /\
  (forall issue_type,
     transport (Spec.clients_request issue_type labels assignee status) 0%nat
     = inr (JObj page) ->
     (issue_type = "Epic" ->
      Clients.get_epics transport labels assignee status =
      inr (match assoc "issues" page with
           | Some issues => issues
           | None => JArr []
           end)) /\
     (issue_type = "Story" ->
      Clients.get_stories transport labels assignee status =
      inr (match assoc "issues" page with
           | Some issues => issues
           | None => JArr []
           end)) /\
     (issue_type = "Task" ->
      Clients.get_tasks transport labels assignee status =
      inr (match assoc "issues" page with
           | Some issues => issues
           | None => JArr []
           end))).
Proof.
  split; [|split; [|split]];
    try (intros jql Hq Ht;
         unfold Core.get_epics, Core.get_stories, Core.get_tasks,
           Core.search_issues, Core._request;
         rewrite Hq; simpl; rewrite Ht; simpl;
         destruct (assoc "issues" page); reflexivity).
  intros it Ht.
  split; [|split]; intros ->;
    unfold Clients.get_epics, Clients.get_stories, Clients.get_tasks,
      Clients._make_request;
    unfold Spec.clients_request in Ht;
    rewrite (retry_first_attempt _ _ Ht); simpl;
    destruct (assoc "issues" page); reflexivity.
Qed.

Lemma fetch_returns_issues_or_empty_witness :
  Core.get_epics (fun _ _ => inr (JObj [("total", JNum 0)]))
    (Some "PAT") None None None None = inr (JArr []) /\
  Clients.get_stories
    (fun _ _ => inr (JObj [("issues", JArr [JNull]); ("total", JNum 1)]))
    None None None = inr (JArr [JNull]).
Proof.
  split.
  - eapply (proj1 (fetch_returns_issues_or_empty _ _ _ _ _ _
                     [("total", JNum 0)])); reflexivity.
  - destruct (proj2 (proj2 (proj2
                (fetch_returns_issues_or_empty
                   (fun _ _ =>
                      inr (JObj [("issues", JArr [JNull]); ("total", JNum 1)]))
                   None None None None None
                   [("issues", JArr [JNull]); ("total", JNum 1)])))
                "Story" eq_refl) as (_ & Hs & _).
    apply Hs. reflexivity.
Defined.

(* ================================================================== *)
(** * The router client: retries, failures, query, configuration *)
(* ================================================================== *)

(** X6.  [_make_request] of the router client consults the first three
    attempts and no more: it returns the answer of the first attempt that
    succeeds, and it fails exactly when all three fail, with a
    [RetryError] made from the third failure. *)
Theorem make_request_retries_three_times (transport : Transport)
  (method endpoint : string) (params : list (string * value)) :
  let call := transport (mkRequest method endpoint params) in
  (forall v,
     Clients._make_request transport method endpoint params = inr v <->
     call 0%nat = inr v \/
     ((exists e0, call 0%nat = inl e0) /\ call 1%nat = inr v) \/
     ((exists e0, call 0%nat = inl e0) /\ (exists e1, call 1%nat = inl e1) /\
      call 2%nat = inr v)) /\
  (forall e,
     Clients._make_request transport method endpoint params = inl e <->
     (exists e0, call 0%nat = inl e0) /\ (exists e1, call 1%nat = inl e1) /\
     (exists e2, call 2%nat = inl e2 /\ e = RetryError (str_of_exn e2))).
Proof.
  intros call. unfold Clients._make_request. fold call. simpl.
  destruct (call 0%nat) as [e0|v0]; [destruct (call 1%nat) as [e1|v1];
    [destruct (call 2%nat) as [e2|v2]|]|]; simpl; split.
  - intros v. split; [discriminate|].
    intros [H|[[_ H]|(_ & _ & H)]]; discriminate.
  - intros e. split.
    + intros H. inversion H. eauto 8.
    + intros (_ & _ & (e2' & H & ->)). now inversion H.
  - intros v. split.
    + intros H. inversion H. right. right. eauto.
    + intros [H|[[_ H]|(_ & _ & H)]]; try discriminate. assumption.
  - intros e. split; [discriminate|].
    intros (_ & _ & (e2 & H & _)). discriminate.
  - intros v. split.
    + intros H. inversion H. right. left. eauto.
    + intros [H|[[_ H]|(_ & [e1 H] & _)]]; try discriminate. assumption.
  - intros e. split; [discriminate|]. intros (_ & [e1 H] & _). discriminate.
  - intros v. split.
    + intros H. now left.
    + intros [H|[[[e0 H] _]|([e0 H] & _)]]; try discriminate. assumption.
  - intros e. split; [discriminate|]. intros ([e0 H] & _). discriminate.
Qed.

Lemma make_request_retries_three_times_witness :
  Clients._make_request
    (fun _ n => match n with
                | 2%nat => inr (JObj [("issues", JArr [])])
                | _ => inl (RequestError "timeout")
                end)
    "GET" "rest/api/2/search" [] = inr (JObj [("issues", JArr [])]) /\
  Clients._make_request (fun _ _ => inl (RequestError "timeout"))
    "GET" "rest/api/2/search" [] = inl (RetryError "timeout").
Proof.
  split.
  - apply (proj2 (proj1 (make_request_retries_three_times _ _ _ _) _)).
    right. right. repeat split; eauto.
  - apply (proj2 (proj2 (make_request_retries_three_times _ _ _ _) _)).
    repeat split; eauto.
Defined.

(** X7.  The fetch operations of the router client never let a failure
    of the transport through as it is: whatever they raise is the
    [RetryError] of the exhausted retries, or the [AttributeError] of
    calling [get] on a page that is not a dict - in particular never an
    [HTTPStatusError] or a [RequestError]. *)
Theorem clients_fetch_raises_retry_error (transport : Transport)
  (labels : option (list string)) (assignee status : option string)
  (e : exn) :
  Clients.get_epics transport labels assignee status = inl e \/
  Clients.get_stories transport labels assignee status = inl e \/
  Clients.get_tasks transport labels assignee status = inl e ->
  ((exists m, e = RetryError m) \/ (exists m, e = AttributeError m)) /\
  (forall code text, e <> HTTPStatusError code text) /\
  (forall m, e <> RequestError m).
Proof.
  assert (Hkind : (exists m, e = RetryError m) \/
                  (exists m, e = AttributeError m) ->
                  ((exists m, e = RetryError m) \/
                   (exists m, e = AttributeError m)) /\
                  (forall code text, e <> HTTPStatusError code text) /\
                  (forall m, e <> RequestError m)).
  { intros H. split; [exact H|].
    destruct H as [[m ->]|[m ->]]; split; intros; discriminate. }
  assert (Hfetch : forall r,
            (response <- Clients.retry 3 (transport r) 0%nat ;;
             dict_get response "issues" (JArr [])) = inl e ->
            (exists m, e = RetryError m) \/ (exists m, e = AttributeError m)).
  { intros r. destruct (Clients.retry 3 (transport r) 0) as [e'|v] eqn:R;
      simpl.
    - intros H. inversion H; subst e'. left. eapply retry_raises, R.
    - unfold dict_get.
      destruct v as [| | | | |members];
        try (intros H; inversion H; right; eauto).
      destruct (assoc "issues" members); discriminate. }
  intros [H|[H|H]]; apply Hkind;
    unfold Clients.get_epics, Clients.get_stories, Clients.get_tasks,
      Clients._make_request in H; eapply Hfetch; exact H.
Qed.

Lemma clients_fetch_raises_retry_error_witness :
  exists e,
    Clients.get_tasks
      (fun _ _ => inl (HTTPStatusError 401 "Unauthorized")) None None None =
    inl e /\
    ((exists m, e = RetryError m) \/ (exists m, e = AttributeError m)) /\
    (forall code text, e <> HTTPStatusError code text) /\
    exists e',
      Clients.get_epics (fun _ _ => inr (JArr [])) None None None = inl e' /\
      ((exists m, e' = RetryError m) \/ (exists m, e' = AttributeError m)).
Proof.
  pose (rejecting := (fun _ _ => inl (HTTPStatusError 401 "Unauthorized"))
                     : Transport).
  pose (listing := (fun _ _ => inr (JArr [])) : Transport).
  destruct (Clients.get_tasks rejecting None None None) as [e|v] eqn:E;
    [|discriminate].
  destruct (Clients.get_epics listing None None None) as [e'|v] eqn:E';
    [|discriminate].
  exists e. split; [exact E|].
  destruct (clients_fetch_raises_retry_error rejecting None None None e
              (or_intror (or_intror E))) as (Hk & Hh & _).
  split; [exact Hk|]. split; [exact Hh|].
  exists e'. split; [exact E'|].
  exact (proj1 (clients_fetch_raises_retry_error listing None None None e'
                  (or_introl E'))).
Defined.

(** X8.  The query of the router client is the " AND " join of the
    clause [issuetype = "<type>"] followed by the clauses of the labels,
    the assignee and the status that are present, in that order; with no
    filter it is that first clause alone, and it always starts with
    it. *)
Theorem clients_build_joins_clauses (issue_type : string)
  (labels : option (list string)) (assignee status : option string) :
  Clients._build_jql_query issue_type labels assignee status =
  join " AND "
    (("issuetype = " ++ dq ++ issue_type ++ dq) ::
     app (Spec.clause_of_list Spec.labels_clause labels)
       (app (Spec.clause_of Spec.assignee_clause assignee)
          (Spec.clause_of Spec.status_clause status))) /\
  Clients._build_jql_query issue_type None None None =
  "issuetype = " ++ dq ++ issue_type ++ dq /\
  Clients._build_jql_query issue_type (Some []) (Some "") (Some "") =
  "issuetype = " ++ dq ++ issue_type ++ dq /\
  String.prefix ("issuetype = " ++ dq ++ issue_type ++ dq)
    (Clients._build_jql_query issue_type labels assignee status) = true.
Proof.
  split; [apply clients_build_outcome|].
  split; [reflexivity|]. split; [reflexivity|].
  rewrite clients_build_outcome.
  destruct (join_cons_prefix " AND " ("issuetype = " ++ dq ++ issue_type ++ dq)
              (app (Spec.clause_of_list Spec.labels_clause labels)
                 (app (Spec.clause_of Spec.assignee_clause assignee)
                    (Spec.clause_of Spec.status_clause status))))
    as [tail ->].
  apply prefix_append.
Qed.

Lemma endswith_unfold (s suffix : string) :
  Clients.endswith s suffix =
  String.eqb s suffix ||
  match s with
  | EmptyString => false
  | String _ s' => Clients.endswith s' suffix
  end.
Proof.
  destruct s; reflexivity.
Qed.

(** [endswith] is the suffix test. *)
Lemma endswith_iff (s suffix : string) :
  Clients.endswith s suffix = true <-> exists pre, s = pre ++ suffix.
Proof.
  split.
  - induction s as [|c s IH]; rewrite endswith_unfold; intros H;
      apply orb_true_iff in H as [H|H].
    + apply String.eqb_eq in H. exists "". now subst.
    + discriminate.
    + apply String.eqb_eq in H. exists "". now subst.
    + destruct (IH H) as [pre ->]. now exists (String c pre).
  - intros [pre ->]. induction pre as [|c pre IH].
    + rewrite endswith_unfold. simpl. now rewrite String.eqb_refl.
    + change (String c pre ++ suffix) with (String c (pre ++ suffix)).
      rewrite endswith_unfold, IH. apply orb_true_r.
Qed.

(** X9.  The URL validator of [JiraConfig] yields a text that ends with
    a slash: it leaves a URL that already ends with one untouched, adds
    exactly one slash otherwise, and applying it twice changes
    nothing more. *)
Theorem ensure_trailing_slash_spec (v : string) :
  (exists pre, Clients.ensure_trailing_slash v = pre ++ "/") /\
  ((exists pre, v = pre ++ "/") -> Clients.ensure_trailing_slash v = v) /\
  ((forall pre, v <> pre ++ "/") ->
   Clients.ensure_trailing_slash v = v ++ "/") /\
  Clients.ensure_trailing_slash (Clients.ensure_trailing_slash v) =
  Clients.ensure_trailing_slash v.
Proof.
  assert (Hyes : Clients.endswith v "/" = true ->
                 Clients.ensure_trailing_slash v = v).
  { intros E. unfold Clients.ensure_trailing_slash. now rewrite E. }
  assert (Hno : Clients.endswith v "/" = false ->
                Clients.ensure_trailing_slash v = v ++ "/").
  { intros E. unfold Clients.ensure_trailing_slash. now rewrite E. }
  assert (Hslash : Clients.endswith (v ++ "/") "/" = true).
  { apply endswith_iff. eauto. }
  destruct (Clients.endswith v "/") eqn:E.
  - rewrite (Hyes eq_refl). apply endswith_iff in E as Hs.
    split; [exact Hs|]. split; [reflexivity|]. split.
    + destruct Hs as [pre Hs]. intros H. now elim (H pre).
    + unfold Clients.ensure_trailing_slash. now rewrite E.
  - rewrite (Hno eq_refl). split; [eauto|]. split; [|split].
    + intros Hs. apply endswith_iff in Hs. rewrite Hs in E. discriminate.
    + reflexivity.
    + unfold Clients.ensure_trailing_slash. now rewrite Hslash.
Qed.

Lemma ensure_trailing_slash_spec_witness :
  Clients.ensure_trailing_slash "https://test-jira.example.com/" =
  "https://test-jira.example.com/" /\
  Clients.ensure_trailing_slash "https://test-jira.example.com" =
  "https://test-jira.example.com" ++ "/".
Proof.
  split.
  - apply (proj1 (proj2 (ensure_trailing_slash_spec _))).
    exists "https://test-jira.example.com". reflexivity.
  - apply (proj1 (proj2 (proj2 (ensure_trailing_slash_spec _)))).
    intros pre H.
    pose proof (proj2 (endswith_iff "https://test-jira.example.com" "/")
                  (ex_intro _ pre H)) as E.
    vm_compute in E. discriminate.
Defined.

(* ================================================================== *)
(** * The registry of the text-generation gateway *)
(* ================================================================== *)

Lemma backend_entry_cases (env : LLM.Env) (p : string) :
  (Spec.initializes env p = false /\ Spec.backend_entry env p = []) \/
  (Spec.initializes env p = true /\
   exists credential llm,
     truthy (LLM.getenv env (Spec.credential_of p)) = Some credential /\
     Spec.constructor_of env p credential = inr llm /\
     Spec.backend_entry env p = [(p, llm)]).
Proof.
  unfold Spec.initializes, Spec.backend_entry.
  destruct (truthy (LLM.getenv env (Spec.credential_of p))) as [k|];
    [destruct (Spec.constructor_of env p k) as [e|llm] eqn:C|]; eauto 8.
Qed.

Lemma keys_flat_map_entries (env : LLM.Env) (l : list string) :
  LLM.keys (flat_map (Spec.backend_entry env) l) =
  filter (Spec.initializes env) l.
Proof.
  unfold LLM.keys. induction l as [|p l IH]; [reflexivity|].
  simpl. rewrite map_app, IH.
  destruct (backend_entry_cases env p)
    as [[Hi He]|[Hi (k & llm & _ & _ & He)]]; rewrite Hi, He; reflexivity.
Qed.

Lemma hd_filter_find {A : Type} (f : A -> bool) (l : list A) :
  hd_error (filter f l) = find f l.
Proof.
  induction l as [|x l IH]; simpl; [reflexivity|].
  now destruct (f x).
Qed.

Lemma assoc_flat_map_entries (env : LLM.Env) (l : list string) (p : string)
  (llm : LLM.BaseLLM) :
  assoc p (flat_map (Spec.backend_entry env) l) = Some llm ->
  exists credential,
    truthy (LLM.getenv env (Spec.credential_of p)) = Some credential /\
    Spec.constructor_of env p credential = inr llm.
Proof.
  induction l as [|q l IH]; simpl; [discriminate|].
  destruct (backend_entry_cases env q)
    as [[_ He]|[_ (k & llm' & Hk & Hc & He)]]; rewrite He; simpl.
  - exact IH.
  - destruct (String.eqb p q) eqn:E.
    + apply String.eqb_eq in E. subst q. intros H. inversion H; subst.
      eauto.
    + exact IH.
Qed.

(** X10.  The default provider of a constructed client is the first
    backend, in the priority order openai, vertex, claude, that
    initializes successfully. *)
Theorem init_default_is_first_initialized (env : LLM.Env)
  (c : LLM.LLMClient) :
  LLM.__init__ env = inr c ->
  Spec.first_initialized env = Some (LLM.default_provider c) /\
  hd_error (LLM.keys (LLM.clients c)) = Some (LLM.default_provider c) /\
  (LLM.default_provider c = "openai" <->
   Spec.initializes env "openai" = true) /\
  (LLM.default_provider c = "vertex" <->
   Spec.initializes env "openai" = false /\
   Spec.initializes env "vertex" = true) /\
  (LLM.default_provider c = "claude" <->
   Spec.initializes env "openai" = false /\
   Spec.initializes env "vertex" = false /\
   Spec.initializes env "claude" = true).
Proof.
  rewrite init_outcome.
  pose proof (keys_flat_map_entries env LLM.SUPPORTED_PROVIDERS) as Hk.
  fold (Spec.registry env) in Hk.
  pose proof (hd_filter_find (Spec.initializes env) LLM.SUPPORTED_PROVIDERS)
    as Hf.
  rewrite <- Hk in Hf. fold (Spec.first_initialized env) in Hf.
  destruct (Spec.registry env) as [|[first llm] rest] eqn:E; [discriminate|].
  intros H. inversion H; subst c; clear H. simpl in Hf. simpl.
  split; [now symmetry|]. split; [reflexivity|].
  unfold Spec.first_initialized in Hf. simpl in Hf.
  destruct (Spec.initializes env "openai");
    [|destruct (Spec.initializes env "vertex");
      [|destruct (Spec.initializes env "claude")]];
    inversion Hf; subst first;
    repeat split; intros; try discriminate; try reflexivity;
    repeat match goal with
           | H : _ /\ _ |- _ => destruct H
           end; try discriminate.
Qed.

Lemma init_default_is_first_initialized_witness :
  exists c,
    LLM.__init__
      (LLM.mkEnv (fun _ => Some "credential")
         (fun _ => inl (BackendError "quota"))
         (fun _ => inr (fun p _ => inr (LLM.RStr p)))
         (fun _ => inr (fun p _ => inr (LLM.RStr p)))) = inr c /\
    Some "vertex" = Some (LLM.default_provider c).
Proof.
  pose (env := LLM.mkEnv (fun _ => Some "credential")
                 (fun _ => inl (BackendError "quota"))
                 (fun _ => inr (fun p _ => inr (LLM.RStr p)))
                 (fun _ => inr (fun p _ => inr (LLM.RStr p)))).
  destruct (LLM.__init__ env) as [e|c] eqn:E; [discriminate|].
  exists c. split; [exact E|].
  exact (proj1 (init_default_is_first_initialized env c E)).
Defined.

(** X11.  In a constructed client a provider is configured if and only
    if it is a supported provider whose backend initialized; the handle
    kept for it is the one its SDK constructor returned for its
    credential; the keys of the registry are distinct and the default
    provider is one of them. *)
Theorem init_configures_initialized (env : LLM.Env) (c : LLM.LLMClient) :
  LLM.__init__ env = inr c ->
  (forall p,
     assoc p (LLM.clients c) <> None <->
     In p LLM.SUPPORTED_PROVIDERS /\ Spec.initializes env p = true) /\
  (forall p llm,
     assoc p (LLM.clients c) = Some llm ->
     exists credential,
       truthy (LLM.getenv env (Spec.credential_of p)) = Some credential /\
       Spec.constructor_of env p credential = inr llm) /\
  NoDup (LLM.keys (LLM.clients c)) /\
  assoc (LLM.default_provider c) (LLM.clients c) <> None.
Proof.
  intros H. destruct (init_client env c H) as [Hreg Hdef].
  assert (Hkeys : forall p,
            assoc p (LLM.clients c) <> None <-> In p (LLM.keys (LLM.clients c))).
  { intros p. pose proof (assoc_None_keys p (LLM.clients c)) as Hn.
    destruct (assoc p (LLM.clients c)); split; intros Hp.
    - destruct (in_dec string_dec p (LLM.keys (LLM.clients c))) as [Hi|Hni];
        [assumption|]. apply Hn in Hni. discriminate.
    - discriminate.
    - now elim Hp.
    - intros _. now apply (proj1 Hn). }
  split; [|split; [|split]].
  - intros p. rewrite Hkeys, Hreg. apply registry_keys.
  - intros p llm Hp. rewrite Hreg in Hp.
    eapply assoc_flat_map_entries. exact Hp.
  - rewrite Hreg. unfold Spec.registry. rewrite keys_flat_map_entries.
    apply NoDup_filter. unfold LLM.SUPPORTED_PROVIDERS.
    repeat constructor; simpl; intuition discriminate.
  - now apply Hkeys.
Qed.

Lemma init_configures_initialized_witness :
  exists c,
    LLM.__init__
      (LLM.mkEnv
         (fun v => if String.eqb v "GOOGLE_CLOUD_PROJECT" then None
                   else Some "key")
         (fun _ => inr (fun p _ => inr (LLM.RStr p)))
         (fun _ => inr (fun p _ => inr (LLM.RStr p)))
         (fun _ => inl (BackendError "bad key"))) = inr c /\
    assoc "openai" (LLM.clients c) <> None /\
    NoDup (LLM.keys (LLM.clients c)).
Proof.
  pose (env := LLM.mkEnv
                 (fun v => if String.eqb v "GOOGLE_CLOUD_PROJECT" then None
                           else Some "key")
                 (fun _ => inr (fun p _ => inr (LLM.RStr p)))
                 (fun _ => inr (fun p _ => inr (LLM.RStr p)))
                 (fun _ => inl (BackendError "bad key"))).
  destruct (LLM.__init__ env) as [e|c] eqn:E; [discriminate|].
  exists c. split; [exact E|].
  destruct (init_configures_initialized env c E) as (Hc & _ & Hn & _).
  split; [|exact Hn].
  apply Hc. split; [simpl; tauto | reflexivity].
Defined.

(* ================================================================== *)
(** * Generation on a constructed client *)
(* ================================================================== *)

Lemma or_else_absent (provider : option string) (default : string) :
  truthy provider = None -> or_else provider default = default.
Proof.
  intros H. unfold or_else. now rewrite H.
Qed.

Lemma constructed_default_usable (env : LLM.Env) (c : LLM.LLMClient) :
  LLM.__init__ env = inr c ->
  str_in (LLM.default_provider c) LLM.SUPPORTED_PROVIDERS = true /\
  exists llm, assoc (LLM.default_provider c) (LLM.clients c) = Some llm.
Proof.
  intros H. destruct (init_client env c H) as [Hreg Hdef]. split.
  - apply str_in_In. rewrite Hreg in Hdef.
    now apply registry_keys in Hdef as [Hs _].
  - destruct (assoc (LLM.default_provider c) (LLM.clients c)) as [llm|] eqn:E;
      [eauto|]. apply assoc_None_keys in E. now elim E.
Qed.

(** X12.  On a constructed client a call of [generate] without a
    provider - [None] or the empty string - goes to the backend of the
    default provider: it returns that backend's text or wraps its
    failure, and never raises a provider-selection [ValueError]. *)
Theorem generate_without_provider_uses_default (env : LLM.Env)
  (c : LLM.LLMClient) (prompt : string) (provider : option string)
  (kwargs : list (string * value)) :
  LLM.__init__ env = inr c ->
  truthy provider = None ->
  exists llm,
    assoc (LLM.default_provider c) (LLM.clients c) = Some llm /\
    LLM.generate c prompt provider kwargs =
    match llm prompt kwargs with
    | inr (LLM.RStr response) => inr (LLM.strip response)
    | inr (LLM.RObj str_response) => inr str_response
    | inl e =>
        inl (RuntimeError ("Failed to generate response: " ++ str_of_exn e))
    end /\
    (forall msg, LLM.generate c prompt provider kwargs <> inl (ValueError msg)).
Proof.
  intros Hc Hp. destruct (constructed_default_usable env c Hc) as [Hs [llm Hl]].
  exists llm. split; [exact Hl|].
  rewrite generate_outcome. cbv zeta.
  rewrite (or_else_absent provider _ Hp), Hs, Hl.
  split; [reflexivity|].
  intros msg. destruct (llm prompt kwargs) as [e|[s|o]]; discriminate.
Qed.

Lemma generate_without_provider_uses_default_witness :
  exists c,
    LLM.__init__
      (LLM.mkEnv
         (fun v => if String.eqb v "ANTHROPIC_API_KEY" then Some "sk"
                   else Some "")
         (fun _ => inr (fun p _ => inr (LLM.RStr "openai")))
         (fun _ => inr (fun p _ => inr (LLM.RStr "vertex")))
         (fun _ => inr (fun p _ => inr (LLM.RStr (" claude: " ++ p))))) =
    inr c /\
    LLM.generate c "hi" (Some "") [] = inr "claude: hi".
Proof.
  pose (env := LLM.mkEnv
                 (fun v => if String.eqb v "ANTHROPIC_API_KEY" then Some "sk"
                           else Some "")
                 (fun _ => inr (fun p _ => inr (LLM.RStr "openai")))
                 (fun _ => inr (fun p _ => inr (LLM.RStr "vertex")))
                 (fun _ => inr (fun p _ => inr (LLM.RStr (" claude: " ++ p))))).
  destruct (LLM.__init__ env) as [e|c] eqn:E; [discriminate|].
  exists c. split; [exact E|].
  destruct (generate_without_provider_uses_default env c "hi" (Some "") []
              E eq_refl) as (llm & Hl & Hg & _).
  inversion E; subst c. simpl in Hl. inversion Hl; subst llm. exact Hg.
Defined.

(** X13.  [generate] raises nothing but [ValueError] and [RuntimeError].
    A failure of the selected backend is never re-raised raw: it becomes
    a [RuntimeError] whose message is "Failed to generate response: "
    followed by the text of the original failure; and a [RuntimeError]
    has no other origin. *)
Theorem generate_wraps_backend_failures (c : LLM.LLMClient)
  (prompt : string) (provider : option string)
  (kwargs : list (string * value)) :
  let selected := or_else provider (LLM.default_provider c) in
  (forall e,
     LLM.generate c prompt provider kwargs = inl e ->
     (exists msg, e = ValueError msg) \/ (exists msg, e = RuntimeError msg)) /\
  (forall llm e,
     In selected LLM.SUPPORTED_PROVIDERS ->
     assoc selected (LLM.clients c) = Some llm ->
     llm prompt kwargs = inl e ->
     LLM.generate c prompt provider kwargs =
     inl (RuntimeError ("Failed to generate response: " ++ str_of_exn e)) /\
     Spec.contains (str_of_exn e)
       ("Failed to generate response: " ++ str_of_exn e)) /\
  (forall msg,
     LLM.generate c prompt provider kwargs = inl (RuntimeError msg) ->
     exists llm e,
       assoc selected (LLM.clients c) = Some llm /\
       llm prompt kwargs = inl e /\
       msg = "Failed to generate response: " ++ str_of_exn e).
Proof.
  intros selected. rewrite generate_outcome. cbv zeta. fold selected.
  split; [|split].
  - intros e.
    destruct (str_in selected LLM.SUPPORTED_PROVIDERS);
      [destruct (assoc selected (LLM.clients c)) as [llm|];
       [destruct (llm prompt kwargs) as [e'|[s|o]]|]|];
      intros H; inversion H; eauto.
  - intros llm e Hs Hl He. apply str_in_In in Hs. rewrite Hs, Hl, He.
    split; [reflexivity|]. apply contains_append_r, contains_refl.
  - intros msg.
    destruct (str_in selected LLM.SUPPORTED_PROVIDERS);
      [destruct (assoc selected (LLM.clients c)) as [llm|];
       [destruct (llm prompt kwargs) as [e'|[s|o]] eqn:E|]|];
      intros H; inversion H. eauto.
Qed.

Lemma generate_wraps_backend_failures_witness :
  LLM.generate
    (LLM.mkLLMClient
       [("vertex", fun _ _ => inl (HTTPStatusError 429 "quota exceeded"))]
       "vertex")
    "hi" None [] =
  inl (RuntimeError "Failed to generate response: quota exceeded").
Proof.
  apply (proj1 (proj2 (generate_wraps_backend_failures
                         (LLM.mkLLMClient
                            [("vertex",
                              fun _ _ =>
                                inl (HTTPStatusError 429 "quota exceeded"))]
                            "vertex")
                         "hi" None []))
           (fun _ _ => inl (HTTPStatusError 429 "quota exceeded"))
           (HTTPStatusError 429 "quota exceeded")).
  - simpl. tauto.
  - reflexivity.
  - reflexivity.
Defined.

(* ================================================================== *)
(** * The endpoints of main.py *)
(* ================================================================== *)

Lemma provider_of_value (p : Shared.LLMProvider) :
  Shared.LLMProvider_of (Shared.value_of p) = inr p.
Proof.
  destruct p; reflexivity.
Qed.

Lemma provider_of_inv (s : string) (p : Shared.LLMProvider) :
  Shared.LLMProvider_of s = inr p -> Shared.value_of p = s.
Proof.
  unfold Shared.LLMProvider_of.
  destruct (String.eqb s "openai") eqn:E1;
    [|destruct (String.eqb s "vertex") eqn:E2;
      [|destruct (String.eqb s "claude") eqn:E3]];
    intros H; inversion H; subst; simpl; symmetry;
    now apply String.eqb_eq.
Qed.

Lemma provider_of_supported (s : string) :
  str_in s LLM.SUPPORTED_PROVIDERS = true ->
  exists p, Shared.LLMProvider_of s = inr p.
Proof.
  unfold str_in, LLM.SUPPORTED_PROVIDERS, Shared.LLMProvider_of. simpl.
  destruct (String.eqb s "openai"); [eauto|].
  destruct (String.eqb s "vertex"); [eauto|].
  destruct (String.eqb s "claude"); [eauto|]. discriminate.
Qed.

Lemma llm_client_outcome (env : LLM.Env) :
  match Main.llm_client env with
  | Some c => LLM.__init__ env = inr c
  | None => Spec.registry env = []
  end.
Proof.
  unfold Main.llm_client. rewrite init_outcome.
  destruct (Spec.registry env) as [|[first llm] rest]; reflexivity.
Qed.

(** X14.  The service is ready exactly when a backend initialized:
    [GET /health] answers "healthy" if and only if at least one supported
    backend initializes at start-up, and 503 otherwise; in that case
    [POST /generate] answers every request with 503 as well. *)
Theorem health_reports_initialized_backend (env : LLM.Env) :
  (Main.health_check (Main.llm_client env) = Ok [("status", "healthy")] <->
   exists p, In p LLM.SUPPORTED_PROVIDERS /\ Spec.initializes env p = true) /\
  (Main.health_check (Main.llm_client env) =
   HTTPException 503 "LLM client not initialized properly" <->
   forall p, In p LLM.SUPPORTED_PROVIDERS -> Spec.initializes env p = false) /\
  ((forall p, In p LLM.SUPPORTED_PROVIDERS ->
              Spec.initializes env p = false) ->
   forall request,
     Main.generate_text (Main.llm_client env) request =
     HTTPException 503 "LLM client not initialized properly").
Proof.
  pose proof (llm_client_outcome env) as Hc.
  destruct (Main.llm_client env) as [c|];
    cbn [Main.health_check Main.generate_text].
  - assert (Hsome : exists p, In p LLM.SUPPORTED_PROVIDERS /\
                              Spec.initializes env p = true).
    { destruct (init_client env c Hc) as [Hreg Hdef]. rewrite Hreg in Hdef.
      apply registry_keys in Hdef. eauto. }
    destruct Hsome as (p & Hp & Hi).
    split; [|split].
    + split; eauto.
    + split; [discriminate|]. intros H. rewrite (H p Hp) in Hi. discriminate.
    + intros H. rewrite (H p Hp) in Hi. discriminate.
  - pose proof (proj1 (registry_empty env) Hc) as Hall.
    split; [|split].
    + split; [discriminate|]. intros (p & Hp & Hi).
      rewrite (Hall p Hp) in Hi. discriminate.
    + split; auto.
    + reflexivity.
Qed.

Lemma health_reports_initialized_backend_witness :
  Main.health_check
    (Main.llm_client
       (LLM.mkEnv (fun _ => Some "key")
          (fun _ => inl (BackendError "bad key"))
          (fun _ => inl (BackendError "bad key"))
          (fun _ => inr (fun p _ => inr (LLM.RStr p))))) =
  Ok [("status", "healthy")] /\
  Main.generate_text
    (Main.llm_client
       (LLM.mkEnv (fun _ => Some "key")
          (fun _ => inl (BackendError "bad key"))
          (fun _ => inl (BackendError "bad key"))
          (fun _ => inl (BackendError "bad key"))))
    (Shared.mkLLMRequest "hello" None []) =
  HTTPException 503 "LLM client not initialized properly".
Proof.
  split.
  - apply (proj2 (proj1 (health_reports_initialized_backend _))).
    exists "claude". split; [simpl; tauto | reflexivity].
  - apply (proj2 (proj2 (health_reports_initialized_backend _))).
    intros p Hp. simpl in Hp.
    destruct Hp as [<-|[<-|[<-|[]]]]; reflexivity.
Defined.

(** X15.  With a client constructed at start-up, a body of
    [POST /generate] carries the text that [generate] returned, names
    the provider that was requested - or the default provider when none
    was - and the metadata source = my_personal_assistant_api.  When no
    key of the request's parameters is named like a parameter of
    [generate], the endpoint answers with such a body whenever
    [generate] returns a text; when one is, the call raises a
    [TypeError] that the endpoint does not handle. *)
Theorem generate_text_reports_used_provider (env : LLM.Env)
  (c : LLM.LLMClient) (request : Shared.LLMRequest) :
  LLM.__init__ env = inr c ->
  let provider_str := option_map Shared.value_of (Shared.provider request) in
  (forall r,
     Main.generate_text (Some c) request = Ok r ->
     Spec.collides (Shared.parameters request) = false /\
     LLM.generate c (Shared.prompt request) provider_str
       (Shared.parameters request) = inr (Shared.text r) /\
     (forall p, Shared.provider request = Some p -> Shared.used r = p) /\
     (Shared.provider request = None ->
      Shared.value_of (Shared.used r) = LLM.default_provider c) /\
     Shared.metadata r = [("source", "my_personal_assistant_api")]) /\
  (forall text,
     Spec.collides (Shared.parameters request) = false ->
     LLM.generate c (Shared.prompt request) provider_str
       (Shared.parameters request) = inr text ->
     exists r,
       Main.generate_text (Some c) request = Ok r /\ Shared.text r = text) /\
  (Spec.collides (Shared.parameters request) = true ->
   exists m, Main.generate_text (Some c) request = Escaped (TypeError m)).
Proof.
  intros Hc provider_str.
  destruct (constructed_default_usable env c Hc) as [Hs _].
  destruct (call_generate_outcome c (Shared.prompt request) provider_str
              (Shared.parameters request)) as [Hno Hyes].
  unfold Main.generate_text, Main.generate_text_body. fold provider_str.
  destruct (Spec.collides (Shared.parameters request)).
  - destruct (Hyes eq_refl) as [m ->]. cbn [bind is_ValueError
      is_RuntimeError].
    split; [intros r H; discriminate|]. split; [discriminate|].
    intros _. eauto.
  - rewrite (Hno eq_refl). clear Hno Hyes.
    destruct (LLM.generate c (Shared.prompt request) provider_str
                (Shared.parameters request)) as [e|text] eqn:G;
      cbn [bind].
    + split; [|split; discriminate]. intros r.
      destruct (is_ValueError e); [discriminate|].
      destruct (is_RuntimeError e); discriminate.
    + assert (Hconv : exists p,
                Shared.LLMProvider_of
                  (or_else provider_str (LLM.default_provider c)) = inr p).
      { subst provider_str. destruct (Shared.provider request) as [p|]; simpl.
        - exists p. destruct p; reflexivity.
        - unfold or_else. simpl. now apply provider_of_supported. }
      destruct Hconv as [p Hp]. rewrite Hp. cbn [bind ret].
      split; [|split; [|discriminate]].
      * intros r H. inversion H; subst r; clear H.
        cbn [Shared.text Shared.used Shared.metadata].
        split; [reflexivity|]. split; [reflexivity|].
        apply provider_of_inv in Hp.
        split; [|split; [|reflexivity]].
        -- intros q Hq. subst provider_str. rewrite Hq in Hp. simpl in Hp.
           destruct p, q; simpl in Hp; try discriminate; reflexivity.
        -- intros Hn. subst provider_str. rewrite Hn in Hp. exact Hp.
      * intros t _ Ht. inversion Ht; subst t. eauto.
Qed.

Lemma generate_text_reports_used_provider_witness :
  (exists r,
     Main.generate_text
       (Main.llm_client
          (LLM.mkEnv
             (fun v => if String.eqb v "GOOGLE_CLOUD_PROJECT" then Some "proj"
                       else None)
             (fun _ => inl (BackendError "unreachable"))
             (fun _ => inr (fun p _ => inr (LLM.RStr (p ++ "  "))))
             (fun _ => inl (BackendError "unreachable"))))
       (Shared.mkLLMRequest "hello" None [("temperature", VInt 0)]) = Ok r /\
     Shared.text r = "hello" /\ Shared.used r = Shared.VERTEX) /\
  (exists m,
     Main.generate_text
       (Main.llm_client
          (LLM.mkEnv
             (fun v => if String.eqb v "GOOGLE_CLOUD_PROJECT" then Some "proj"
                       else None)
             (fun _ => inl (BackendError "unreachable"))
             (fun _ => inr (fun p _ => inr (LLM.RStr (p ++ "  "))))
             (fun _ => inl (BackendError "unreachable"))))
       (Shared.mkLLMRequest "hello" None [("prompt", VStr "other")]) =
     Escaped (TypeError m)).
Proof.
  pose (env := LLM.mkEnv
                 (fun v => if String.eqb v "GOOGLE_CLOUD_PROJECT"
                           then Some "proj" else None)
                 (fun _ => inl (BackendError "unreachable"))
                 (fun _ => inr (fun p _ => inr (LLM.RStr (p ++ "  "))))
                 (fun _ => inl (BackendError "unreachable"))).
  destruct (LLM.__init__ env) as [e|c] eqn:E; [discriminate|].
  assert (Hc : Main.llm_client env = Some c)
    by (unfold Main.llm_client; now rewrite E).
  change (LLM.mkEnv _ _ _ _) with env. rewrite Hc.
  pose (request := Shared.mkLLMRequest "hello" None [("temperature", VInt 0)]).
  split.
  - destruct (proj1 (proj2 (generate_text_reports_used_provider env c
                              request E)) "hello" eq_refl)
      as (r & Hr & Ht).
    { inversion E. reflexivity. }
    exists r. split; [exact Hr|]. split; [exact Ht|].
    destruct (proj1 (generate_text_reports_used_provider env c request E)
                r Hr)
      as (_ & _ & _ & Hd & _).
    specialize (Hd eq_refl). inversion E; subst c. simpl in Hd.
    destruct (Shared.used r); simpl in Hd; try discriminate. reflexivity.
  - apply (proj2 (proj2 (generate_text_reports_used_provider env c
                           (Shared.mkLLMRequest "hello" None
                              [("prompt", VStr "other")]) E))).
    reflexivity.
Defined.

(** X16.  The provider enumeration of the API and the supported
    providers of the client agree: a string converts to a member of
    [LLMProvider] exactly when the client supports it, any other string
    raises [ValueError], and conversion and [value] are inverse to each
    other. *)
Theorem provider_enum_matches_supported (s : string) :
  (In s LLM.SUPPORTED_PROVIDERS <->
   exists p, Shared.LLMProvider_of s = inr p) /\
  (~ In s LLM.SUPPORTED_PROVIDERS ->
   exists msg, Shared.LLMProvider_of s = inl (ValueError msg)) /\
  (forall p, Shared.LLMProvider_of s = inr p -> Shared.value_of p = s) /\
  (forall p,
     Shared.LLMProvider_of (Shared.value_of p) = inr p /\
     In (Shared.value_of p) LLM.SUPPORTED_PROVIDERS).
Proof.
  split; [|split; [|split]].
  - split.
    + intros H. apply provider_of_supported. now apply str_in_In.
    + intros [p H]. apply provider_of_inv in H. subst s.
      destruct p; simpl; tauto.
  - intros H. destruct (Shared.LLMProvider_of s) as [e|p] eqn:E.
    + unfold Shared.LLMProvider_of in E.
      repeat match type of E with
             | (if ?b then _ else _) = _ => destruct b; try discriminate
             end.
      inversion E. eauto.
    + apply provider_of_inv in E. subst s. elim H. destruct p; simpl; tauto.
  - intros p. apply provider_of_inv.
  - intros p. split; [apply provider_of_value|]. destruct p; simpl; tauto.
Qed.

Lemma provider_enum_matches_supported_witness :
  (exists msg, Shared.LLMProvider_of "gemini" = inl (ValueError msg)) /\
  Shared.value_of Shared.CLAUDE = "claude".
Proof.
  split.
  - apply (proj1 (proj2 (provider_enum_matches_supported "gemini"))).
    simpl. intuition discriminate.
  - apply (proj1 (proj2 (proj2 (provider_enum_matches_supported "claude")))).
    reflexivity.
Defined.

(* ================================================================== *)
(** * The handlers of the Jira router *)
(* ================================================================== *)

Lemma all_str_map (l : list string) : Routers.all_str (map JStr l) = inr l.
Proof.
  induction l as [|s l IH]; simpl; [reflexivity|]. now rewrite IH.
Qed.

Lemma to_JiraIssue_payload (i : Routers.JiraIssue) :
  Routers.to_JiraIssue (Spec.payload_of i) = inr i.
Proof.
  destruct i as [i k s t st a l]. unfold Routers.to_JiraIssue, Spec.payload_of.
  cbn [Routers.id Routers.key Routers.summary Routers.issue_type
       Routers.status Routers.assignee Routers.labels].
  destruct a as [a|]; cbn; rewrite all_str_map; reflexivity.
Qed.

Lemma comprehension_payloads (l : list Routers.JiraIssue) :
  Routers.comprehension (map Spec.payload_of l) = inr l.
Proof.
  induction l as [|i l IH]; [reflexivity|].
  cbn [map Routers.comprehension]. rewrite to_JiraIssue_payload.
  cbn [bind]. rewrite IH. reflexivity.
Qed.

(** X17.  Round trip through the Jira router: when the tracker answers
    the first attempt with a page whose "issues" are the payloads of a
    list of issue summaries, each endpoint answers with exactly that
    list, in order - an absent assignee included; a page without
    "issues" gives the empty list. *)
Theorem router_returns_fetched_issues (transport : Transport)
  (labels : option (list string)) (assignee status : option string)
  (page : list (string * json)) (l : list Routers.JiraIssue) :
  assoc "issues" page = Some (JArr (map Spec.payload_of l)) \/
  (assoc "issues" page = None /\ l = []) ->
  (transport (Spec.clients_request "Epic" labels assignee status) 0%nat =
   inr (JObj page) ->
   Routers.get_epics transport labels assignee status = Ok l) /\
  (transport (Spec.clients_request "Story" labels assignee status) 0%nat =
   inr (JObj page) ->
   Routers.get_stories transport labels assignee status = Ok l) /\
  (transport (Spec.clients_request "Task" labels assignee status) 0%nat =
   inr (JObj page) ->
   Routers.get_tasks transport labels assignee status = Ok l).
Proof.
  intros Hpage.
  assert (Hshape : (issues <- dict_get (JObj page) "issues" (JArr []) ;;
                    Routers.shape issues) = inr l).
  { destruct Hpage as [H|[H ->]]; cbn [dict_get]; rewrite H; cbn.
    - apply comprehension_payloads.
    - reflexivity. }
  split; [|split]; intros Ht;
    unfold Routers.get_epics, Routers.get_stories, Routers.get_tasks,
      Routers.handler, Clients.get_epics, Clients.get_stories,
      Clients.get_tasks, Clients._make_request;
    unfold Spec.clients_request in Ht;
    rewrite (retry_first_attempt _ _ Ht); cbn [bind];
    cbn [bind] in Hshape; now rewrite Hshape.
Qed.

Lemma router_returns_fetched_issues_witness :
  Routers.get_tasks
    (fun _ _ =>
       inr (JObj
              [("issues",
                JArr
                  (map Spec.payload_of
                     [Routers.mkJiraIssue "10001" "TEST-1" "Test Issue"
                        "Task" "To Do" None ["test"; "backend"]]));
               ("total", JNum 1)]))
    (Some ["backend"]) None (Some "To Do") =
  Ok [Routers.mkJiraIssue "10001" "TEST-1" "Test Issue" "Task" "To Do" None
        ["test"; "backend"]].
Proof.
  pose (l := [Routers.mkJiraIssue "10001" "TEST-1" "Test Issue" "Task"
                "To Do" None ["test"; "backend"]]).
  pose (page := [("issues", JArr (map Spec.payload_of l));
                 ("total", JNum 1)]).
  apply (proj2 (proj2 (router_returns_fetched_issues
                         (fun _ _ => inr (JObj page)) (Some ["backend"]) None
                         (Some "To Do") page l (or_introl eq_refl)))).
  reflexivity.
Defined.

Lemma comprehension_success (issues : list json)
  (body : list Routers.JiraIssue) :
  Routers.comprehension issues = inr body ->
  Forall2 (fun issue x => Routers.to_JiraIssue issue = inr x) issues body.
Proof.
  revert body. induction issues as [|issue rest IH]; intros body; simpl.
  - intros H. inversion H. constructor.
  - destruct (Routers.to_JiraIssue issue) as [e|x] eqn:E; [discriminate|].
    simpl. destruct (Routers.comprehension rest) as [e|r]; [discriminate|].
    simpl. intros H. inversion H; subst body. constructor; auto.
Qed.

Lemma comprehension_failure (issues : list json) (issue : json) (e : exn) :
  In issue issues -> Routers.to_JiraIssue issue = inl e ->
  exists e', Routers.comprehension issues = inl e'.
Proof.
  induction issues as [|x rest IH]; [contradiction|].
  intros [->|Hin] He; simpl.
  - rewrite He. simpl. eauto.
  - destruct (Routers.to_JiraIssue x); simpl; [eauto|].
    destruct (IH Hin He) as [e' ->]. simpl. eauto.
Qed.

(** X18.  The handlers of the Jira router shape all issues or none: a
    body has exactly one summary per fetched issue, in order, each the
    shaping of its issue; if a single issue cannot be shaped - a missing
    "id", for instance, is a [KeyError] - the whole request is answered
    with 500 and no partial list. *)
Theorem router_shapes_all_or_nothing (issues : list json) :
  (forall body,
     Routers.handler (inr (JArr issues)) = Ok body ->
     List.length body = List.length issues /\
     Forall2 (fun issue x => Routers.to_JiraIssue issue = inr x)
       issues body) /\
  (forall issue e,
     In issue issues -> Routers.to_JiraIssue issue = inl e ->
     exists detail,
       Routers.handler (inr (JArr issues)) = HTTPException 500 detail) /\
  (forall members,
     assoc "id" members = None ->
     Routers.to_JiraIssue (JObj members) = inl (KeyError "id") /\
     (In (JObj members) issues ->
      exists detail,
        Routers.handler (inr (JArr issues)) = HTTPException 500 detail)).
Proof.
  assert (Hfail : forall issue e,
            In issue issues -> Routers.to_JiraIssue issue = inl e ->
            exists detail,
              Routers.handler (inr (JArr issues)) = HTTPException 500 detail).
  { intros issue e Hin He.
    destruct (comprehension_failure issues issue e Hin He) as [e' H].
    unfold Routers.handler. cbn [bind Routers.shape]. rewrite H. eauto. }
  split; [|split].
  - intros body. unfold Routers.handler. cbn [bind Routers.shape].
    destruct (Routers.comprehension issues) as [e|b] eqn:E; [discriminate|].
    intros H. inversion H; subst b.
    apply comprehension_success in E. split; [|exact E].
    symmetry. eapply Forall2_length, E.
  - exact Hfail.
  - intros members Hid.
    assert (Hk : Routers.to_JiraIssue (JObj members) = inl (KeyError "id")).
    { unfold Routers.to_JiraIssue. cbn [getitem]. now rewrite Hid. }
    split; [exact Hk|]. intros Hin. eapply Hfail; eassumption.
Qed.

Lemma router_shapes_all_or_nothing_witness :
  exists detail,
    Routers.handler
      (inr (JArr
              [Spec.payload_of
                 (Routers.mkJiraIssue "1" "T-1" "ok" "Task" "Done" None []);
               JObj [("key", JStr "T-2")]])) =
    HTTPException 500 detail.
Proof.
  apply (proj2 (proj2 (proj2 (router_shapes_all_or_nothing
                                [Spec.payload_of
                                   (Routers.mkJiraIssue "1" "T-1" "ok" "Task"
                                      "Done" None []);
                                 JObj [("key", JStr "T-2")]]))
                  [("key", JStr "T-2")] eq_refl)).
  simpl. tauto.
Defined.

(* ================================================================== *)
(** * The core builder against the shared types and the router builder *)
(* ================================================================== *)

(** X19.  The shared status enumeration and the allow-list of the core
    builder do not coincide: of the five members of [JiraIssueStatus] the
    builder accepts exactly "To Do", "In Progress" and "Done", it rejects
    "In Review" and "Blocked" with [FilterValidationError], and the two
    statuses "Backlog" and "Selected for Development" that it accepts
    are no members of the enumeration. *)
Theorem shared_statuses_and_allow_list (st : SharedJira.JiraIssueStatus)
  (project_key : option string) (issue_types labels : option (list string))
  (assignee : option string) :
  ((exists jql,
      Core._build_jql_query project_key issue_types labels assignee
        (Some (SharedJira.value_of st)) = inr jql) <->
   st = SharedJira.TO_DO \/ st = SharedJira.IN_PROGRESS \/
   st = SharedJira.DONE) /\
  ((exists msg,
      Core._build_jql_query project_key issue_types labels assignee
        (Some (SharedJira.value_of st)) =
      inl (Core_FilterValidationError msg)) <->
   st = SharedJira.IN_REVIEW \/ st = SharedJira.BLOCKED) /\
  SharedJira.value_of st <> "Backlog" /\
  SharedJira.value_of st <> "Selected for Development" /\
  In "Backlog" Core.allowed_statuses /\
  In "Selected for Development" Core.allowed_statuses.
Proof.
  pose proof (core_build_outcome
                (Spec.mkFilterSet project_key issue_types labels assignee
                   (Some (SharedJira.value_of st)))) as Hb.
  unfold Spec.build in Hb.
  cbn [Spec.project_key Spec.issue_types Spec.labels Spec.assignee
       Spec.status] in Hb.
  destruct st; cbn [SharedJira.value_of truthy] in Hb |- *;
    match type of Hb with
    | context [str_in ?s Core.allowed_statuses] =>
        let b := eval vm_compute in (str_in s Core.allowed_statuses) in
        change (str_in s Core.allowed_statuses) with b in Hb
    end;
    cbv iota in Hb; rewrite Hb;
    (split; [split; [intros [q H]; try discriminate; tauto
                    |intros [H|[H|H]]; try discriminate; eauto]|]);
    (split; [split; [intros [q H]; try discriminate; tauto
                    |intros [H|H]; try discriminate; eauto]|]);
    (split; [discriminate|]); (split; [discriminate|]);
    simpl; tauto.
Qed.

Lemma shared_statuses_and_allow_list_witness :
  (exists jql,
     Core._build_jql_query (Some "PAT") None None None
       (Some (SharedJira.value_of SharedJira.DONE)) = inr jql) /\
  (exists msg,
     Core._build_jql_query (Some "PAT") None None None
       (Some (SharedJira.value_of SharedJira.BLOCKED)) =
     inl (Core_FilterValidationError msg)).
Proof.
  split.
  - apply (proj2 (proj1 (shared_statuses_and_allow_list SharedJira.DONE
                           (Some "PAT") None None None))).
    tauto.
  - apply (proj2 (proj1 (proj2 (shared_statuses_and_allow_list
                                  SharedJira.BLOCKED (Some "PAT") None None
                                  None)))).
    tauto.
Defined.

(** X20.  The core builder escapes nothing, so different Filter Sets
    can yield the same query: a project key that carries a status clause
    gives the query of the plain key with that status, and a single
    label that carries a quote-comma-quote gives the query of two
    labels. *)
Theorem core_build_escapes_nothing :
  (forall c k s,
     In s Core.allowed_statuses ->
     Core._build_jql_query
       (Some (String c k ++ " AND status = " ++ dq ++ s ++ dq))
       None None None None =
     Core._build_jql_query (Some (String c k)) None None None (Some s)) /\
  (forall a b,
     Core._build_jql_query None None (Some [a ++ dq ++ ", " ++ dq ++ b])
       None None =
     Core._build_jql_query None None (Some [a; b]) None None) /\
  (forall c k,
     Spec.mkFilterSet
       (Some (String c k ++ " AND status = " ++ dq ++ "Done" ++ dq))
       None None None None <>
     Spec.mkFilterSet (Some (String c k)) None None None (Some "Done")).
Proof.
  split; [|split].
  - intros c k s Hs.
    pose proof (core_build_outcome
                  (Spec.mkFilterSet (Some (String c k)) None None None
                     (Some s))) as Hb.
    unfold Spec.build in Hb.
    cbn [Spec.project_key Spec.issue_types Spec.labels Spec.assignee
         Spec.status] in Hb.
    rewrite (proj2 (truthy_Some (Some s) s)
               (conj eq_refl (allow_list_nonempty s Hs))) in Hb.
    apply str_in_In in Hs. rewrite Hs in Hb. rewrite Hb.
    unfold Core._build_jql_query, join, dq. cbn.
    repeat (rewrite !append_assoc; cbn). reflexivity.
  - intros a b. unfold Core._build_jql_query, join, dq. cbn.
    repeat (rewrite !append_assoc; cbn). reflexivity.
  - intros c k H. discriminate.
Qed.

Lemma core_build_escapes_nothing_witness :
  Core._build_jql_query
    (Some ("PROJ" ++ " AND status = " ++ dq ++ "Done" ++ dq))
    None None None None =
  Core._build_jql_query (Some "PROJ") None None None (Some "Done").
Proof.
  apply (proj1 core_build_escapes_nothing "P"%char "ROJ" "Done").
  simpl. tauto.
Defined.

(** X21.  Where the core builder accepts the filters, the two builders
    differ in their issue-type clause only: for one issue type and no
    project key, the core query is [issueType in ("<type>")] and the
    router query is [issuetype = "<type>"], each followed by the same
    clauses for labels, assignee and status. *)
Theorem builders_agree_after_issue_type (issue_type : string)
  (labels : option (list string)) (assignee status : option string)
  (jql : string) :
  Core._build_jql_query None (Some [issue_type]) labels assignee status =
  inr jql ->
  exists rest,
    jql = join " AND "
            (("issueType in (" ++ (dq ++ issue_type ++ dq) ++ ")") :: rest) /\
    Clients._build_jql_query issue_type labels assignee status =
    join " AND " (("issuetype = " ++ dq ++ issue_type ++ dq) :: rest).
Proof.
  intros H. rewrite clients_build_outcome.
  pose proof (core_build_outcome
                (Spec.mkFilterSet None (Some [issue_type]) labels assignee
                   status)) as Hb.
  unfold Spec.build in Hb.
  cbn [Spec.project_key Spec.issue_types Spec.labels Spec.assignee
       Spec.status] in Hb.
  rewrite H in Hb. unfold Spec.clauses_before_status in Hb.
  cbn [Spec.project_key Spec.issue_types Spec.labels Spec.assignee
       Spec.status] in Hb.
  unfold Spec.clause_of.
  change (Spec.clause_of Spec.project_clause None) with (@nil string) in Hb.
  change (Spec.clause_of_list Spec.issue_type_clause (Some [issue_type]))
    with ["issueType in (" ++ (dq ++ issue_type ++ dq) ++ ")"] in Hb.
  destruct (truthy status) as [s|].
  - destruct (str_in s Core.allowed_statuses); [|discriminate].
    inversion Hb; subst jql. eexists. split; [|reflexivity].
    cbn [app]. now rewrite <- !app_assoc.
  - inversion Hb; subst jql. eexists. split; [|reflexivity].
    cbn [app]. now rewrite !app_nil_r.
Qed.

Lemma builders_agree_after_issue_type_witness :
  exists rest,
    "issueType in (" ++ dq ++ "Task" ++ dq ++ ") AND assignee = " ++ dq ++
    "mork" ++ dq =
    join " AND " (("issueType in (" ++ dq ++ "Task" ++ dq ++ ")") :: rest) /\
    Clients._build_jql_query "Task" None (Some "mork") None =
    join " AND " (("issuetype = " ++ dq ++ "Task" ++ dq) :: rest).
Proof.
  exact (builders_agree_after_issue_type "Task" None (Some "mork") None _
           eq_refl).
Defined.
